(** * Adaptive Opus: controllers, codec pipeline and sweep worker

    A shallow embedding of [dashboard_engine.py], [opus_wrapper.py],
    [quality_analyzer.py] and the worker/collector of [main_script.py],
    with the properties of the design document stated over it. *)

From Stdlib Require Import ZArith QArith List Lia Bool.
From Stdlib Require Import DecimalString.
From stdpp Require Import base option list strings gmap.

Open Scope Z_scope.

(** ** Python numbers

    The loss percentage and the predicted scores are Python numbers (int or
    float).  Python compares an int and a float by their exact mathematical
    values, so a number is modelled as an exact rational, one of the two
    infinities, or NaN; every ordered comparison with NaN is false. *)
Module PyNum.

Inductive pynum : Type :=
  | Fin (q : Q)
  | PosInf
  | NegInf
  | NaN.

Definition of_Z (z : Z) : pynum := Fin (inject_Z z).

(** [a < b] *)
Definition ltb (a b : pynum) : bool :=
  match a, b with
  | NaN, _ | _, NaN => false
  | Fin x, Fin y => negb (Qle_bool y x)
  | NegInf, NegInf => false
  | NegInf, _ => true
  | _, NegInf => false
  | PosInf, _ => false
  | _, PosInf => true
  end.

(** [a > b] is [b < a], as in Python. *)
Definition gtb (a b : pynum) : bool := ltb b a.

(** [a <= b] *)
Definition leb (a b : pynum) : bool :=
  match a, b with
  | NaN, _ | _, NaN => false
  | Fin x, Fin y => Qle_bool x y
  | NegInf, _ => true
  | _, PosInf => true
  | _, NegInf => false
  | PosInf, _ => false
  end.

(** [a >= b] *)
Definition geb (a b : pynum) : bool := leb b a.

(** Truth value of a number ([if not score]): zero is false, everything
    else, NaN included, is true. *)
Definition truthy (a : pynum) : bool :=
  match a with
  | Fin q => negb (Qeq_bool q 0)
  | _ => true
  end.

End PyNum.
Import PyNum.

(** ** Configurations ([dashboard_engine.py]) *)

(** The dictionaries built by [generate_all_configs] and the controllers
    always carry the same four keys. *)
Record config : Type := mkConfig {
  bitrate : Z;
  frame_size : Z;
  complexity : Z;
  use_fec : bool
}.

#[global] Instance config_eq_dec : EqDecision config.
Proof. solve_decision. Defined.

Definition bitrates : list Z := [8; 12; 16; 24; 32; 48].
Definition frame_sizes : list Z := [20; 40; 60].
Definition complexities : list Z := [5; 9].
Definition fec_options : list bool := [false; true].

(** The four nested [for] loops, each iteration of the innermost one
    appending one dictionary to [configs]. *)
Definition generate_all_configs (_ : unit) : list config :=
  fold_left (fun configs b =>
    fold_left (fun configs f =>
      fold_left (fun configs c =>
        fold_left (fun configs fec =>
          configs ++ [mkConfig b f c fec])
        fec_options configs)
      complexities configs)
    frame_sizes configs)
  bitrates [].

(** ** Controllers *)

Definition static_controller (packet_loss : pynum) : config :=
  mkConfig 32 20 5 false.

Definition heuristic_controller (packet_loss : pynum) : config :=
  let bitrate :=
    if ltb packet_loss (of_Z 2) then 48
    else if ltb packet_loss (of_Z 5) then 24
    else if ltb packet_loss (of_Z 10) then 16
    else 12 in
  mkConfig bitrate 20 5 false.

(** [int(cfg["use_fec"])] *)
Definition int_of_bool (b : bool) : Z := if b then 1 else 0.

(** The feature vector handed to the predictor. *)
Definition features (cfg : config) (packet_loss : pynum) : list pynum :=
  [of_Z (bitrate cfg); of_Z (frame_size cfg);
   of_Z (int_of_bool (use_fec cfg)); packet_loss].

(** A loaded model answers [model.predict([features])[0]] with a number, or
    raises ([None] here); as for a fitted regressor, the answer depends on
    the feature vector only.  [load_model] returns Python's [None] when the
    artifact is absent or unreadable, so the [model] argument is optional. *)
Definition predictor : Type := list pynum -> option pynum.

(** The [try] block of the loop body: calling [predict] on Python's [None]
    raises [AttributeError], which [except Exception] catches like any
    failure of the predictor itself. *)
Definition try_predict (model : option predictor) (feats : list pynum) : pynum :=
  match model with
  | None => Fin 0
  | Some m =>
      match m feats with
      | Some pred => pred
      | None => Fin 0
      end
  end.

(** [-1e9] *)
Definition initial_best_score : pynum := of_Z (-1000000000).

(** One iteration of the candidate loop on the pair [(best, best_score)]. *)
Definition ml_step (packet_loss : pynum) (model : option predictor)
    (st : option config * pynum) (cfg : config) : option config * pynum :=
  let pred := try_predict model (features cfg packet_loss) in
  if gtb pred (snd st) then (Some cfg, pred) else st.

(** Returns [best], which is still Python's [None] when no candidate ever
    beat the initial [best_score]. *)
Definition ml_controller (packet_loss : pynum) (model : option predictor)
    : option config :=
  let candidates := generate_all_configs tt in
  fst (fold_left (ml_step packet_loss model) candidates
         (None, initial_best_score)).

Definition hybrid_controller (packet_loss : pynum) (model : option predictor)
    : option config :=
  if ltb packet_loss (Fin 5) then ml_controller packet_loss model
  else Some (static_controller packet_loss).

(** ** The outside world

    Everything the scripts reach through libraries and child processes:
    files on disk, the wall clock, [soundfile], [scipy.signal.resample],
    the [opusenc]/[opusdec] programs and the [pesq] scorer.  Exceptions are
    those of class [Exception], the ones [except Exception] catches; what
    the scripts [print] is left out. *)

Inductive exn : Type :=
  | CalledProcessError              (* [subprocess.run(check=True)], nonzero exit *)
  | ValueError (msg : string)
  | TypeError (msg : string)
  | ZeroDivisionError
  | LibraryError (origin : string). (* an exception raised inside a library
                                       call, whatever its class *)

Inductive result (A : Type) : Type :=
  | Ret (a : A)
  | Raise (e : exn).
Arguments Ret {A} a.
Arguments Raise {A} e.

(** A decoded sound file: a one-dimensional array of samples, or a
    two-dimensional one with a row of channel values per frame. *)
Inductive ndarray : Type :=
  | Arr1 (samples : list Z)
  | Arr2 (frames : list (list Z)).

Definition ndim (a : ndarray) : Z :=
  match a with Arr1 _ => 1 | Arr2 _ => 2 end.

Definition arr_len (a : ndarray) : nat :=
  match a with Arr1 s => length s | Arr2 f => length f end.

(** [a[:, 0]] *)
Definition column0 (a : ndarray) : ndarray :=
  match a with
  | Arr1 s => Arr1 s
  | Arr2 f => Arr1 (map (fun row => hd 0 row) f)
  end.

(** [a[:n]] *)
Definition arr_take (n : nat) (a : ndarray) : ndarray :=
  match a with
  | Arr1 s => Arr1 (take n s)
  | Arr2 f => Arr2 (take n f)
  end.

(** How a child process ended: with an exit status, or never started
    ([OSError] from [subprocess.run]). *)
Inductive proc_outcome : Type :=
  | Exited (status : Z)
  | SpawnFailed.

(** How [sf.write] ended: with the file written, or with an exception,
    the path then holding what was written before the failure ([Some]) or
    being as it was ([None]). *)
Inductive write_outcome : Type :=
  | Written (bytes : string)
  | WriteFailed (left : option string).

Record World : Type := mkWorld {
  files : gmap string string;   (* path |-> file contents *)
  clock : Q;                    (* [time.time()], seconds; child processes
                                   move it on *)
  procs : list (list string)    (* command lines run so far, oldest first *)
}.

(** The external collaborators, consumed through narrow interfaces.  The
    floating-point operations of the interpreter are among them: their
    results are rounded, and are given here as the exact value of the
    rounded result. *)
Record externals : Type := mkExternals {
  home : string;                                     (* [Path.home()] *)
  path_stem : string -> string;                      (* [Path.stem] *)
  path_name : string -> string;                      (* [Path.name] *)
  str_num : pynum -> string;                         (* [str(x)] of a number *)
  sf_decode : string -> option (ndarray * Z);        (* [sf.read] on contents,
                                                        samples as integers *)
  sf_write_file : ndarray -> Z -> write_outcome;     (* [sf.write] of contents *)
  scipy_resample : ndarray -> Z -> option ndarray;   (* [None]: it raises *)
  run_process :
    list string -> gmap string string -> Q ->
    proc_outcome * gmap string string * Q;           (* a child process *)
  pesq : Z -> ndarray -> ndarray -> string -> option pynum;
  joblib_load : string -> option predictor;          (* [joblib.load] on contents *)
  float_mul : Q -> Q -> Q;                           (* [x * y] on floats *)
  float_sub : Q -> Q -> Q;                           (* [x - y] on floats *)
  int_true_div : Z -> Z -> Q                         (* [a / b] of two ints *)
}.

(** State-and-exception monad of the scripts. *)
Definition M (A : Type) : Type := World -> result A * World.

Definition ret {A} (a : A) : M A := fun w => (Ret a, w).
Definition raise {A} (e : exn) : M A := fun w => (Raise e, w).
Definition bind {A B} (m : M A) (k : A -> M B) : M B :=
  fun w =>
    match m w with
    | (Ret a, w') => k a w'
    | (Raise e, w') => (Raise e, w')
    end.

(** [try: m  except <those e with handler e = Some h>: h] *)
Definition try_except {A} (m : M A) (handler : exn -> option (M A)) : M A :=
  fun w =>
    match m w with
    | (Ret a, w') => (Ret a, w')
    | (Raise e, w') =>
        match handler e with
        | Some h => h w'
        | None => (Raise e, w')
        end
    end.

Notation "'let*' x ':=' c 'in' k" := (bind c (fun x => k))
  (at level 10, x name, c at level 100, k at level 200).
Notation "'exec' c 'in' k" := (bind c (fun _ => k))
  (at level 10, c at level 100, k at level 200).

(** [except subprocess.CalledProcessError] *)
Definition on_CalledProcessError {A} (h : M A) (e : exn) : option (M A) :=
  match e with CalledProcessError => Some h | _ => None end.

(** [except Exception] *)
Definition on_Exception {A} (h : M A) (e : exn) : option (M A) := Some h.

(** [str(n)] of an int. *)
Definition str_int (z : Z) : string := NilZero.string_of_int (Z.to_int z).

Definition dot_char : Ascii.ascii := Ascii.ascii_of_nat 46.
Definition p_char : Ascii.ascii := Ascii.ascii_of_nat 112.

(** [s.replace('.', 'p')] *)
Fixpoint replace_dot (s : string) : string :=
  match s with
  | EmptyString => EmptyString
  | String c r => String (if Ascii.eqb c dot_char then p_char else c) (replace_dot r)
  end.

(** [int(x)] of a float, given by its exact value: truncation towards
    zero. *)
Definition int_of_Q (x : Q) : Z := Z.quot (Qnum x) (Z.pos (Qden x)).

Section Scripts.
Context (E : externals).

Definition time_time : M Q := fun w => (Ret (clock w), w).

(** [p.unlink(missing_ok=True)] *)
Definition unlink (p : string) : M unit :=
  fun w => (Ret tt, mkWorld (delete p (files w)) (clock w) (procs w)).

(** [sf.read(p)]: raises when the file is absent or is not audio. *)
Definition sf_read (p : string) : M (ndarray * Z) :=
  fun w =>
    match files w !! p with
    | Some bytes =>
        match sf_decode E bytes with
        | Some r => (Ret r, w)
        | None => (Raise (LibraryError "soundfile"), w)
        end
    | None => (Raise (LibraryError "soundfile"), w)
    end.

(** [sf.write(p, data, sr)] *)
Definition sf_write (p : string) (data : ndarray) (sr : Z) : M unit :=
  fun w =>
    match sf_write_file E data sr with
    | Written bytes =>
        (Ret tt, mkWorld (<[p := bytes]> (files w)) (clock w) (procs w))
    | WriteFailed (Some partial) =>
        (Raise (LibraryError "soundfile"),
         mkWorld (<[p := partial]> (files w)) (clock w) (procs w))
    | WriteFailed None => (Raise (LibraryError "soundfile"), w)
    end.

(** [subprocess.run(cmd, check=True, capture_output=True, text=True)] *)
Definition subprocess_run (cmd : list string) : M unit :=
  fun w =>
    let '(outcome, fs, t) := run_process E cmd (files w) (clock w) in
    let w' := mkWorld fs t (procs w ++ [cmd]) in
    match outcome with
    | Exited 0 => (Ret tt, w')
    | Exited _ => (Raise CalledProcessError, w')
    | SpawnFailed => (Raise (LibraryError "subprocess"), w')
    end.

(** *** [opus_wrapper.py] *)

Definition BASE_PROJECT_DIR : string := home E +:+ "/adaptive_opus".
Definition PROCESSED_AUDIO_DIR : string := BASE_PROJECT_DIR +:+ "/processed_audio".

Definition output_filename_base (input_wav_path : string)
    (bitrate frame_size complexity : Z) (use_fec : bool)
    (simulated_loss_perc : pynum) : string :=
  let fec_str := if use_fec then "fec" else "nofec" in
  let loss_str := replace_dot (str_num E simulated_loss_perc) in
  path_stem E input_wav_path +:+ "_" +:+
  "b" +:+ str_int bitrate +:+ "_f" +:+ str_int frame_size +:+
  "_c" +:+ str_int complexity +:+ "_" +:+
  fec_str +:+ "_l" +:+ loss_str.

Definition intermediate_opus_file (input_wav_path : string)
    (bitrate frame_size complexity : Z) (use_fec : bool)
    (simulated_loss_perc : pynum) : string :=
  PROCESSED_AUDIO_DIR +:+ "/" +:+
  output_filename_base input_wav_path bitrate frame_size complexity use_fec
    simulated_loss_perc +:+ ".opus".

Definition final_wav_file (input_wav_path : string)
    (bitrate frame_size complexity : Z) (use_fec : bool)
    (simulated_loss_perc : pynum) : string :=
  PROCESSED_AUDIO_DIR +:+ "/" +:+
  output_filename_base input_wav_path bitrate frame_size complexity use_fec
    simulated_loss_perc +:+ ".wav".

Definition encode_command (input_wav_path : string)
    (bitrate frame_size complexity : Z) (use_fec : bool)
    (intermediate : string) : list string :=
  let fec_flag := if use_fec then ["--expect-loss"; "5"] else [] in
  ["opusenc";
   "--bitrate"; str_int bitrate;
   "--framesize"; str_int frame_size;
   "--comp"; str_int complexity] ++
  fec_flag ++
  [input_wav_path; intermediate].

Definition decode_command (simulated_loss_perc : pynum)
    (intermediate final : string) : list string :=
  ["opusdec";
   "--rate"; "16000";
   "--packet-loss"; str_num E simulated_loss_perc;
   intermediate;
   final].

(** Returns the decoded file's path, or Python's [None]. *)
Definition process_audio_file (input_wav_path : string)
    (bitrate frame_size complexity : Z) (use_fec : bool)
    (simulated_loss_perc : pynum) : M (option string) :=
  let intermediate :=
    intermediate_opus_file input_wav_path bitrate frame_size complexity
      use_fec simulated_loss_perc in
  let final :=
    final_wav_file input_wav_path bitrate frame_size complexity
      use_fec simulated_loss_perc in
  let* encoded := try_except
    (exec subprocess_run
       (encode_command input_wav_path bitrate frame_size complexity use_fec
          intermediate) in
     ret true)
    (on_CalledProcessError (ret false)) in
  if negb encoded then ret None
  else
    let* decoded := try_except
      (exec subprocess_run
         (decode_command simulated_loss_perc intermediate final) in
       ret true)
      (on_CalledProcessError (exec unlink intermediate in ret false)) in
    if negb decoded then ret None
    else
      exec unlink intermediate in
      ret (Some final).

(** *** [quality_analyzer.py] *)

Definition REQUIRED_SAMPLE_RATE : Z := 16000.
Definition PESQ_MODE : string := "wb".

(** Returns the score, or Python's [None]. *)
Definition get_audio_quality (original_file_path processed_file_path : string)
    : M (option pynum) :=
  let* loaded := try_except
    (let* ref := sf_read original_file_path in
     let* deg := sf_read processed_file_path in
     ret (Some (ref, deg)))
    (on_Exception (ret None)) in
  match loaded with
  | None => ret None
  | Some ((ref_data, ref_fs), (deg_data, deg_fs)) =>
      if negb (ref_fs =? REQUIRED_SAMPLE_RATE)
         || negb (deg_fs =? REQUIRED_SAMPLE_RATE)
      then ret None
      else
        let ref_data := if 1 <? ndim ref_data then column0 ref_data else ref_data in
        let deg_data := if 1 <? ndim deg_data then column0 deg_data else deg_data in
        let min_len := Nat.min (arr_len ref_data) (arr_len deg_data) in
        let ref_data := arr_take min_len ref_data in
        let deg_data := arr_take min_len deg_data in
        match pesq E REQUIRED_SAMPLE_RATE ref_data deg_data PESQ_MODE with
        | Some score => ret (Some score)
        | None => ret (Some (Fin 1))
        end
  end.

(** *** [dashboard_engine.py]: the evaluation harness *)

Definition BASE_DIR : string := home E +:+ "/adaptive_opus".
Definition MODEL_PATH : string := BASE_DIR +:+ "/qoe_model.joblib".

(** Python's [None] when the artifact is absent or [joblib.load] raises. *)
Definition load_model : M (option predictor) :=
  fun w =>
    match files w !! MODEL_PATH with
    | Some bytes =>
        match joblib_load E bytes with
        | Some m => (Ret (Some m), w)
        | None => (Ret None, w)
        end
    | None => (Ret None, w)
    end.

(** [len(audio) * 16000 / sr] divides two ints, which raises when [sr] is 0
    and gives a float otherwise; [resample] may raise as well (it does for
    a target length of 0). *)
Definition resample_to_16khz (audio : ndarray) (sr : Z) : M (ndarray * Z) :=
  if sr =? 16000 then ret (audio, sr)
  else if sr =? 0 then raise ZeroDivisionError
  else
    let num_samples :=
      int_of_Q (int_true_div E (Z.of_nat (arr_len audio) * 16000) sr) in
    match scipy_resample E audio num_samples with
    | Some audio_res => ret (audio_res, 16000)
    | None => raise (LibraryError "scipy")
    end.

Record metrics : Type := mkMetrics {
  mos : option pynum;
  m_config : config;
  processing_time_s : Q;
  processed_file : string
}.

(** The [if]/[elif] chain on [controller_type]; the learned controllers may
    hand back Python's [None]. *)
Definition select_controller (controller_type : string) (packet_loss_perc : pynum)
    (model : option predictor) : M (option config) :=
  if String.eqb controller_type "static" then
    ret (Some (static_controller packet_loss_perc))
  else if String.eqb controller_type "heuristic" then
    ret (Some (heuristic_controller packet_loss_perc))
  else if String.eqb controller_type "ml_adaptive" then
    ret (ml_controller packet_loss_perc model)
  else if String.eqb controller_type "hybrid" then
    ret (hybrid_controller packet_loss_perc model)
  else raise (ValueError "Unknown controller type").

(** Lines 95-103: read the upload, force it to 16 kHz mono and write the
    temporary input; yields [(start, temp_input)]. *)
Definition prepare_input (audio_path : string) : M (Q * string) :=
  let* start := time_time in
  let* r := sf_read audio_path in
  let data := fst r in
  let sr := snd r in
  let data_mono := if 1 <? ndim data then column0 data else data in
  let* rs := resample_to_16khz data_mono sr in
  let* now := time_time in
  let temp_input :=
    PROCESSED_AUDIO_DIR +:+ "/temp_input_" +:+
    str_int (int_of_Q (float_mul E now 1000)) +:+ ".wav" in
  exec sf_write temp_input (fst rs) (snd rs) in
  ret (start, temp_input).

Definition run_audio_simulation (audio_path : string) (packet_loss_perc : pynum)
    (controller_type : string) (model : option predictor) : M (option metrics) :=
  let* si := prepare_input audio_path in
  let start := fst si in
  let temp_input := snd si in
  let* choice := select_controller controller_type packet_loss_perc model in
  match choice with
  | None => raise (TypeError "'NoneType' object is not subscriptable")
  | Some cfg =>
      let* processed := process_audio_file temp_input
        (bitrate cfg) (frame_size cfg) (complexity cfg) (use_fec cfg)
        packet_loss_perc in
      match processed with
      | None =>
          exec unlink temp_input in
          ret None
      | Some processed_file =>
          let* mos := get_audio_quality temp_input processed_file in
          let* end_ := time_time in
          let metrics :=
            mkMetrics mos cfg (float_sub E end_ start) processed_file in
          exec unlink temp_input in
          ret (Some metrics)
      end
  end.

(** *** [main_script.py]: the sweep worker and the collecting loop *)

Record job_params : Type := mkJob {
  original_file : string;
  p_bitrate : Z;
  p_frame_size : Z;
  p_complexity : Z;
  p_use_fec : bool;
  packet_loss_perc : pynum
}.

Record row : Type := mkRow {
  r_original_file : string;
  r_bitrate : Z;
  r_frame_size : Z;
  r_complexity : Z;
  r_use_fec : bool;
  r_packet_loss_perc : pynum;
  pesq_mos_score : pynum
}.

(** [not score] on what [get_audio_quality] returned. *)
Definition not_score (score : option pynum) : bool :=
  match score with
  | None => true
  | Some s => negb (truthy s)
  end.

Definition result_data (params : job_params) (score : pynum) : row :=
  mkRow (path_name E (original_file params))
        (p_bitrate params) (p_frame_size params) (p_complexity params)
        (p_use_fec params) (packet_loss_perc params) score.

Definition run_single_combination (params : job_params) : M (option row) :=
  try_except
    (let* processed := process_audio_file (original_file params)
       (p_bitrate params) (p_frame_size params) (p_complexity params)
       (p_use_fec params) (packet_loss_perc params) in
     match processed with
     | None => ret None
     | Some processed_file =>
         let* score := get_audio_quality (original_file params) processed_file in
         match score with
         | Some s =>
             if truthy s then
               let result := result_data params s in
               exec unlink processed_file in
               ret (Some result)
             else
               exec unlink processed_file in
               ret None
         | None =>
             exec unlink processed_file in
             ret None
         end
     end)
    (on_Exception (ret None)).

Definition MAX_FILES_TO_PROCESS : nat := 20.
Definition BITRATES : list Z := [8; 12; 16; 24; 32; 48].
Definition FRAME_SIZES : list Z := [20; 40; 60].
Definition COMPLEXITIES : list Z := [5; 9].
Definition FEC_STATUSES : list bool := [true; false].
Definition PACKET_LOSSES : list Z := [0; 1; 2; 3; 5; 7; 10].

(** The job list of [run_experiment_parallel]. *)
Definition all_job_params (audio_files : list string) : list job_params :=
  let files_to_process := take MAX_FILES_TO_PROCESS audio_files in
  original_file ← files_to_process;
  bitrate ← BITRATES;
  frame_size ← FRAME_SIZES;
  complexity ← COMPLEXITIES;
  use_fec ← FEC_STATUSES;
  loss_perc ← PACKET_LOSSES;
  [mkJob original_file bitrate frame_size complexity use_fec (of_Z loss_perc)].

(** The body of the [for result in tqdm(jobs, ...)] loop. *)
Definition collect_step (results_list : list row) (result : option row) : list row :=
  match result with
  | Some r => results_list ++ [r]
  | None => results_list
  end.

(** [pool.imap_unordered] hands the workers' results over in the order in
    which they finish; [arrival] is the job list in that order.  Each worker
    call runs to completion against the world left by the calls that
    finished before it. *)
Fixpoint collect_loop (arrival : list job_params) (results_list : list row)
    : M (list row) :=
  match arrival with
  | [] => ret results_list
  | params :: rest =>
      let* result := run_single_combination params in
      collect_loop rest (collect_step results_list result)
  end.

(** The [try] block around the pool: [Some results_list] when the loop runs
    to its end, Python's early [return] when an exception reaches it. *)
Definition run_experiment_parallel (arrival : list job_params)
    : M (option (list row)) :=
  try_except
    (let* results_list := collect_loop arrival [] in
     ret (Some results_list))
    (on_Exception (ret None)).

End Scripts.

(** *** [dashboard.py]: the comparison loop

    What one tab of the dashboard ends up showing.  The Streamlit calls only
    display values; [f"{metrics['mos']:.3f}"] raises [TypeError] when the
    score is Python's [None]. *)
Inductive tab_outcome : Type :=
  | SimulationFailed                       (* [st.error(...)]; [continue] *)
  | Shown (mos : pynum) (cfg : config) (processing_time_s : Q) (playable : bool).

Definition controllers : list string :=
  ["static"; "heuristic"; "ml_adaptive"; "hybrid"].

Section Dashboard.
Context (E : externals).

(** [open(metrics['processed_file'], 'rb')] inside [try]/[except Exception]. *)
Definition can_open (p : string) : M bool :=
  fun w => (Ret (bool_decide (is_Some (files w !! p))), w).

(** The body of [for tab, ctrl in zip(tabs, controllers)]. *)
Definition show_tab (tmp_path : string) (packet_loss : pynum)
    (model : option predictor) (ctrl : string) : M tab_outcome :=
  let* metrics := run_audio_simulation E tmp_path packet_loss ctrl model in
  match metrics with
  | None => ret SimulationFailed
  | Some m =>
      match mos m with
      | None =>
          raise (TypeError "unsupported format string passed to NoneType.__format__")
      | Some score =>
          let* playable := can_open (processed_file m) in
          ret (Shown score (m_config m) (processing_time_s m) playable)
      end
  end.

Fixpoint run_tabs (tmp_path : string) (packet_loss : pynum)
    (model : option predictor) (ctrls : list string)
    : M (list (string * tab_outcome)) :=
  match ctrls with
  | [] => ret []
  | ctrl :: rest =>
      let* shown := show_tab tmp_path packet_loss model ctrl in
      let* others := run_tabs tmp_path packet_loss model rest in
      ret ((ctrl, shown) :: others)
  end.

(** What the "Run Simulation" button does with the model [load_model]
    returned. *)
Definition run_simulation_button (tmp_path : string) (packet_loss : pynum)
    : M (list (string * tab_outcome)) :=
  let* model := load_model E in
  run_tabs tmp_path packet_loss model controllers.

End Dashboard.

(** ** Notions used to state the properties *)

(** The grid written out by its index: bitrate changes every 12 entries,
    frame size every 4, complexity every 2, FEC at every entry. *)
Definition grid_entry (i : nat) : config :=
  mkConfig (nth (i / 12) [8; 12; 16; 24; 32; 48] 0)
           (nth ((i / 4) mod 3) [20; 40; 60] 0)
           (nth ((i / 2) mod 2) [5; 9] 0)
           (nth (i mod 2) [false; true] false).

(** The score [ml_controller] gives a candidate. *)
Definition candidate_score (loss : pynum) (model : option predictor)
    (cfg : config) : pynum :=
  try_predict model (features cfg loss).

(** What the pair [(best, best_score)] satisfies once the candidates of
    [seen] have gone through the loop body. *)
Definition loop_invariant (loss : pynum) (model : option predictor)
    (seen : list config) (st : option config * pynum) : Prop :=
  match st with
  | (None, best_score) =>
      best_score = initial_best_score /\
      forall c, c ∈ seen ->
        gtb (candidate_score loss model c) initial_best_score = false
  | (Some best, best_score) =>
      best_score = candidate_score loss model best /\
      gtb best_score initial_best_score = true /\
      exists i : nat,
        seen !! i = Some best /\
        (forall c, c ∈ seen ->
           gtb (candidate_score loss model c) best_score = false) /\
        (forall (j : nat) c, (j < i)%nat -> seen !! j = Some c ->
           geb (candidate_score loss model c) best_score = false)
  end.

(** What [get_audio_quality] hands to [pesq]: both signals reduced to their
    first channel and cut to the length of the shorter one. *)
Definition to_mono (a : ndarray) : ndarray :=
  if 1 <? ndim a then column0 a else a.

Definition pesq_inputs (ref_data deg_data : ndarray) : ndarray * ndarray :=
  let min_len := Nat.min (arr_len (to_mono ref_data)) (arr_len (to_mono deg_data)) in
  (arr_take min_len (to_mono ref_data), arr_take min_len (to_mono deg_data)).

(** The four controller names the dispatch knows. *)
Definition known_controller (controller_type : string) : Prop :=
  controller_type ∈ ["static"; "heuristic"; "ml_adaptive"; "hybrid"].

(** The decision of a known controller. *)
Definition controller_choice (controller_type : string) (loss : pynum)
    (model : option predictor) : option config :=
  if String.eqb controller_type "static" then Some (static_controller loss)
  else if String.eqb controller_type "heuristic" then Some (heuristic_controller loss)
  else if String.eqb controller_type "ml_adaptive" then ml_controller loss model
  else hybrid_controller loss model.

(** The two command lines the harness has the pipeline run for a
    configuration. *)
Definition harness_encode (E : externals) (temp_input : string) (cfg : config)
    (loss : pynum) : list string :=
  encode_command temp_input (bitrate cfg) (frame_size cfg) (complexity cfg)
    (use_fec cfg)
    (intermediate_opus_file E temp_input (bitrate cfg) (frame_size cfg)
       (complexity cfg) (use_fec cfg) loss).

Definition harness_decode (E : externals) (temp_input : string) (cfg : config)
    (loss : pynum) : list string :=
  decode_command E loss
    (intermediate_opus_file E temp_input (bitrate cfg) (frame_size cfg)
       (complexity cfg) (use_fec cfg) loss)
    (final_wav_file E temp_input (bitrate cfg) (frame_size cfg)
       (complexity cfg) (use_fec cfg) loss).

(** The name [prepare_input] gives the temporary input when the clock
    reads [now]. *)
Definition temp_input_name (E : externals) (now : Q) : string :=
  PROCESSED_AUDIO_DIR E +:+ "/temp_input_" +:+
  str_int (int_of_Q (float_mul E now 1000)) +:+ ".wav".

(** [0 <= x <= 100] *)
Definition in_range (x : pynum) : bool := leb (of_Z 0) x && leb x (of_Z 100).

(** What each worker call of the sweep returned, job by job, in arrival
    order; the world is threaded as in [collect_loop]. *)
Fixpoint job_outcomes (E : externals) (arrival : list job_params) (w : World)
    : list (job_params * result (option row)) :=
  match arrival with
  | [] => []
  | params :: rest =>
      (params, fst (run_single_combination E params w)) ::
      job_outcomes E rest (snd (run_single_combination E params w))
  end.

(** The sample a worker call contributed, if any. *)
Definition sample_of (outcome : job_params * result (option row)) : option row :=
  match snd outcome with
  | Ret (Some r) => Some r
  | _ => None
  end.

(** ** A small concrete world

    Stand-ins for the external programs and libraries, so that the scripts
    can be run on explicit inputs. *)
Module Demo.

Definition demo_str_num (x : pynum) : string :=
  match x with
  | Fin q =>
      if (Z.pos (Qden q) =? 1) then str_int (Qnum q)
      else str_int (Qnum q) +:+ "/" +:+ str_int (Z.pos (Qden q))
  | PosInf => "inf"
  | NegInf => "-inf"
  | NaN => "nan"
  end.

Definition wav16k : string := "RIFF-16000".
Definition wav8k : string := "RIFF-8000".

Definition demo_sf_decode (bytes : string) : option (ndarray * Z) :=
  if String.eqb bytes wav16k then Some (Arr1 [3; 1; 4; 1; 5], 16000)
  else if String.eqb bytes wav8k then Some (Arr1 [3; 1; 4], 8000)
  else None.

Definition demo_sf_write_file (data : ndarray) (sr : Z) : write_outcome :=
  Written (if sr =? 16000 then wav16k else wav8k).

(** Exact arithmetic, as floats give on the small dyadic values used
    here. *)
Definition demo_int_true_div (a b : Z) : Q := (inject_Z a / inject_Z b)%Q.

(** [opusenc] ends with status [enc_status], leaving an output file behind
    when [enc_writes]; [opusdec] ends with status [dec_status] and, on
    success, writes [dec_out]. *)
Definition demo_run_process (enc_status : Z) (enc_writes : bool)
    (dec_status : Z) (dec_out : string)
    (cmd : list string) (fs : gmap string string) (t : Q)
    : proc_outcome * gmap string string * Q :=
  match cmd with
  | prog :: args =>
      if String.eqb prog "opusenc" then
        (Exited enc_status,
         if enc_writes then <[List.last args "" := "OggS"]> fs else fs,
         (t + 1)%Q)
      else if String.eqb prog "opusdec" then
        (Exited dec_status,
         if dec_status =? 0 then <[List.last args "" := dec_out]> fs else fs,
         (t + 1)%Q)
      else (SpawnFailed, fs, t)
  | [] => (SpawnFailed, fs, t)
  end.

Definition demo (enc_status : Z) (enc_writes : bool) (dec_status : Z)
    (dec_out : string) (pesq_out : option pynum) : externals :=
  mkExternals "/home/u" (fun _ => "clip") (fun _ => "clip.wav")
    demo_str_num demo_sf_decode demo_sf_write_file (fun a _ => Some a)
    (demo_run_process enc_status enc_writes dec_status dec_out)
    (fun _ _ _ _ => pesq_out) (fun _ => None)
    Qmult Qminus demo_int_true_div.

(** Everything works and the scorer answers 3.5. *)
Definition healthy : externals := demo 0 true 0 wav16k (Some (Fin (7 # 2))).

(** The encoder starts writing its output, then fails. *)
Definition encoder_fails : externals := demo 1 true 0 wav16k (Some (Fin (7 # 2))).

(** The decoder fails. *)
Definition decoder_fails : externals := demo 0 true 1 wav16k (Some (Fin (7 # 2))).

(** The decoder writes 8 kHz audio. *)
Definition wrong_rate : externals := demo 0 true 0 wav8k (Some (Fin (7 # 2))).

(** The scorer raises on every pair. *)
Definition scorer_raises : externals := demo 0 true 0 wav16k None.

(** The encoder fails on every job that asks for 8 kbps. *)
Definition flaky_run_process (cmd : list string) (fs : gmap string string) (t : Q)
    : proc_outcome * gmap string string * Q :=
  match cmd with
  | "opusenc" :: "--bitrate" :: "8" :: _ => (Exited 1, fs, (t + 1)%Q)
  | _ => demo_run_process 0 true 0 wav16k cmd fs t
  end.

Definition flaky : externals :=
  mkExternals "/home/u" (fun _ => "clip") (fun _ => "clip.wav")
    demo_str_num demo_sf_decode demo_sf_write_file (fun a _ => Some a)
    flaky_run_process (fun _ _ _ _ => Some (Fin (7 # 2))) (fun _ => None)
    Qmult Qminus demo_int_true_div.

(** Neither codec program can be started. *)
Definition no_codec : externals :=
  mkExternals "/home/u" (fun _ => "clip") (fun _ => "clip.wav")
    demo_str_num demo_sf_decode demo_sf_write_file (fun a _ => Some a)
    (fun _ fs t => (SpawnFailed, fs, t))
    (fun _ _ _ _ => Some (Fin (7 # 2))) (fun _ => None)
    Qmult Qminus demo_int_true_div.

(** A predictor that scores every candidate at -2e9. *)
Definition pessimist : predictor := fun _ => Some (of_Z (-2000000000)).

Definition clip : string := "/in/clip.wav".

Definition w0 : World := mkWorld {[ clip := wav16k ]} 0 [].

Definition job (loss : Z) : job_params := mkJob clip 32 20 5 false (of_Z loss).

Definition job_at (bitrate : Z) : job_params := mkJob clip bitrate 20 5 false (of_Z 5).

(** The decoded file of [job 5], and the world once the pipeline has
    produced it. *)
Definition decoded : string :=
  "/home/u/adaptive_opus/processed_audio/clip_b32_f20_c5_nofec_l5.wav".

Definition after_pipeline : World :=
  snd (process_audio_file scorer_raises clip 32 20 5 false (of_Z 5) w0).

(** A predictor that prefers high bitrates when told of a loss above 100
    and low bitrates otherwise. *)
Definition probe : predictor :=
  fun feats =>
    match feats with
    | [Fin b; _; _; l] => Some (if ltb (of_Z 100) l then Fin b else Fin (- b))
    | _ => None
    end.

End Demo.

(** * Properties *)

(** ** Order facts on Python numbers *)

Lemma ltb_Fin_iff (x y : Q) : ltb (Fin x) (Fin y) = true <-> (x < y)%Q.
Proof.
  simpl. rewrite negb_true_iff, <- not_true_iff_false, Qle_bool_iff.
  split; [apply Qnot_le_lt | apply Qlt_not_le].
Qed.

Lemma leb_Fin_iff (x y : Q) : leb (Fin x) (Fin y) = true <-> (x <= y)%Q.
Proof. simpl. apply Qle_bool_iff. Qed.

Lemma ltb_Fin_false_iff (x y : Q) : ltb (Fin x) (Fin y) = false <-> (y <= x)%Q.
Proof. simpl. rewrite negb_false_iff. apply Qle_bool_iff. Qed.

Lemma leb_Fin_false_iff (x y : Q) : leb (Fin x) (Fin y) = false <-> (y < x)%Q.
Proof.
  simpl. rewrite <- not_true_iff_false, Qle_bool_iff.
  split; [apply Qnot_le_lt | apply Qlt_not_le].
Qed.

(** Turns every comparison of the goal and the context into a fact on
    rationals, after a case analysis on the numbers involved. *)
Ltac pynum_order :=
  repeat match goal with
  | H : ltb (Fin _) (Fin _) = true |- _ => apply ltb_Fin_iff in H
  | H : ltb (Fin _) (Fin _) = false |- _ => apply ltb_Fin_false_iff in H
  | H : leb (Fin _) (Fin _) = true |- _ => apply leb_Fin_iff in H
  | H : leb (Fin _) (Fin _) = false |- _ => apply leb_Fin_false_iff in H
  | |- ltb (Fin _) (Fin _) = true => apply ltb_Fin_iff
  | |- ltb (Fin _) (Fin _) = false => apply ltb_Fin_false_iff
  | |- leb (Fin _) (Fin _) = true => apply leb_Fin_iff
  | |- leb (Fin _) (Fin _) = false => apply leb_Fin_false_iff
  end.

Lemma ltb_irrefl (a : pynum) : ltb a a = false.
Proof. destruct a; try reflexivity. pynum_order. apply Qle_refl. Qed.

Lemma ltb_trans (a b c : pynum) :
  ltb a b = true -> ltb b c = true -> ltb a c = true.
Proof.
  destruct a, b, c; try (simpl; congruence); intros H1 H2; pynum_order.
  eapply Qlt_trans; eassumption.
Qed.

Lemma leb_ltb_false (a b : pynum) : leb a b = true -> ltb b a = false.
Proof.
  destruct a, b; try (simpl; congruence); intros H; pynum_order. exact H.
Qed.

Lemma ltb_leb_false (a b : pynum) : ltb a b = true -> leb b a = false.
Proof.
  destruct a, b; try (simpl; congruence); intros H; pynum_order. exact H.
Qed.

Lemma leb_ltb_trans (a b c : pynum) :
  leb a b = true -> ltb b c = true -> ltb a c = true.
Proof.
  destruct a, b, c; try (simpl; congruence); intros H1 H2; pynum_order.
  eapply Qle_lt_trans; eassumption.
Qed.

(** A score that does not beat the running best cannot beat, or tie with,
    a later score that does. *)
Lemma not_above_best (best s pred : pynum) :
  ltb best pred = true -> ltb best s = false ->
  ltb pred s = false /\ leb pred s = false.
Proof.
  destruct best, s, pred; try (simpl; intuition congruence);
    intros H1 H2; pynum_order; split; pynum_order.
  - apply Qlt_le_weak. eapply Qle_lt_trans; eassumption.
  - eapply Qle_lt_trans; eassumption.
Qed.

(** ** The parameter grid *)

Lemma generate_all_configs_unfold :
  generate_all_configs tt = map grid_entry (seq 0 72).
Proof. vm_compute. reflexivity. Qed.

Lemma grid_members (cfg : config) :
  cfg ∈ generate_all_configs tt <->
  bitrate cfg ∈ [8; 12; 16; 24; 32; 48] /\
  frame_size cfg ∈ [20; 40; 60] /\
  complexity cfg ∈ [5; 9] /\
  use_fec cfg ∈ [false; true].
Proof.
  split.
  - intros H. apply list_elem_of_In in H.
    vm_compute in H.
    repeat (destruct H as [<- | H]; [cbn; repeat split; set_solver |]).
    destruct H.
  - destruct cfg as [b f c fec]. cbn. intros (Hb & Hf & Hc & Hfec).
    assert (Hdec : forall x : config,
               bool_decide (x ∈ generate_all_configs tt) = true ->
               x ∈ generate_all_configs tt)
      by (intros x Hx; exact (bool_decide_eq_true_1 _ Hx)).
    repeat (apply elem_of_cons in Hb as [-> | Hb]);
      [ .. | apply elem_of_nil in Hb; destruct Hb ];
      (repeat (apply elem_of_cons in Hf as [-> | Hf]);
       [ .. | apply elem_of_nil in Hf; destruct Hf ]);
      (repeat (apply elem_of_cons in Hc as [-> | Hc]);
       [ .. | apply elem_of_nil in Hc; destruct Hc ]);
      (repeat (apply elem_of_cons in Hfec as [-> | Hfec]);
       [ .. | apply elem_of_nil in Hfec; destruct Hfec ]);
      apply Hdec; vm_compute; reflexivity.
Qed.

(** C4: [generate_all_configs] returns 72 pairwise distinct configurations,
    a configuration is in the result exactly when each of its fields is one
    of the listed values (so each of the 6*3*2*2 combinations occurs, and
    occurs once), the entry at index [i] is the one with bitrate number
    [i / 12], frame size number [(i / 4) mod 3], complexity number
    [(i / 2) mod 2] and FEC number [i mod 2] (bitrate outermost, FEC
    innermost), and two calls return the same list. *)
Theorem generate_all_configs_full_grid :
  length (generate_all_configs tt) = 72%nat /\
  NoDup (generate_all_configs tt) /\
  (forall cfg : config,
     cfg ∈ generate_all_configs tt <->
     bitrate cfg ∈ [8; 12; 16; 24; 32; 48] /\
     frame_size cfg ∈ [20; 40; 60] /\
     complexity cfg ∈ [5; 9] /\
     use_fec cfg ∈ [false; true]) /\
  (forall i : nat, (i < 72)%nat ->
     generate_all_configs tt !! i =
     Some (mkConfig (nth (i / 12) [8; 12; 16; 24; 32; 48] 0)
                    (nth ((i / 4) mod 3) [20; 40; 60] 0)
                    (nth ((i / 2) mod 2) [5; 9] 0)
                    (nth (i mod 2) [false; true] false))) /\
  (forall call1 call2 : unit,
     generate_all_configs call1 = generate_all_configs call2).
Proof.
  split; [vm_compute; reflexivity |].
  split; [apply (bool_decide_eq_true_1 _); vm_compute; reflexivity |].
  split; [exact grid_members |].
  split.
  - intros i Hi. rewrite generate_all_configs_unfold.
    rewrite list_lookup_fmap, lookup_seq_lt by exact Hi. reflexivity.
  - intros [] []. reflexivity.
Qed.

(** ** The rule-based controllers *)

Lemma heuristic_fixed_fields (loss : pynum) :
  frame_size (heuristic_controller loss) = 20 /\
  complexity (heuristic_controller loss) = 5 /\
  use_fec (heuristic_controller loss) = false.
Proof. repeat split. Qed.

Lemma heuristic_bitrate_unfold (loss : pynum) :
  bitrate (heuristic_controller loss) =
  if ltb loss (of_Z 2) then 48
  else if ltb loss (of_Z 5) then 24
  else if ltb loss (of_Z 10) then 16
  else 12.
Proof. reflexivity. Qed.

(** The four bands, for every Python number. *)
Lemma heuristic_controller_bands (loss : pynum) :
  (ltb loss (of_Z 2) = true -> bitrate (heuristic_controller loss) = 48) /\
  (leb (of_Z 2) loss = true -> ltb loss (of_Z 5) = true ->
   bitrate (heuristic_controller loss) = 24) /\
  (leb (of_Z 5) loss = true -> ltb loss (of_Z 10) = true ->
   bitrate (heuristic_controller loss) = 16) /\
  (leb (of_Z 10) loss = true -> bitrate (heuristic_controller loss) = 12).
Proof.
  assert (H25 : ltb (of_Z 2) (of_Z 5) = true) by reflexivity.
  assert (H510 : ltb (of_Z 5) (of_Z 10) = true) by reflexivity.
  rewrite heuristic_bitrate_unfold. repeat split.
  - intros ->. reflexivity.
  - intros Hlo Hhi. rewrite (leb_ltb_false _ _ Hlo), Hhi. reflexivity.
  - intros Hlo Hhi.
    rewrite (leb_ltb_false _ _ Hlo).
    destruct (ltb loss (of_Z 2)) eqn:H2.
    + pose proof (ltb_trans _ _ _ H2 H25) as H5.
      rewrite (leb_ltb_false _ _ Hlo) in H5. discriminate.
    + rewrite Hhi. reflexivity.
  - intros Hlo.
    rewrite (leb_ltb_false _ _ Hlo).
    destruct (ltb loss (of_Z 5)) eqn:H5.
    + pose proof (ltb_trans _ _ _ H5 H510) as H10.
      rewrite (leb_ltb_false _ _ Hlo) in H10. discriminate.
    + destruct (ltb loss (of_Z 2)) eqn:H2; [| reflexivity].
      pose proof (ltb_trans _ _ _ H2 H25) as H5'. congruence.
Qed.

(** C2: whatever the loss, [heuristic_controller] answers frame size 20,
    complexity 5 and no FEC; the bitrate is 48 below 2, 24 from 2 up to but
    not including 5, 16 from 5 up to but not including 10, and 12 from 10
    on (stated with Python's comparisons on any number, and again on the
    rationals), so that 2.0, 5.0 and 10.0 fall in the band they open, and
    1.9, 4.999 and 9.999 in the band below. *)
Theorem heuristic_controller_tiers (loss : pynum) :
  frame_size (heuristic_controller loss) = 20 /\
  complexity (heuristic_controller loss) = 5 /\
  use_fec (heuristic_controller loss) = false /\
  (ltb loss (of_Z 2) = true -> bitrate (heuristic_controller loss) = 48) /\
  (leb (of_Z 2) loss = true -> ltb loss (of_Z 5) = true ->
   bitrate (heuristic_controller loss) = 24) /\
  (leb (of_Z 5) loss = true -> ltb loss (of_Z 10) = true ->
   bitrate (heuristic_controller loss) = 16) /\
  (leb (of_Z 10) loss = true -> bitrate (heuristic_controller loss) = 12) /\
  (forall q : Q, (q < 2)%Q -> bitrate (heuristic_controller (Fin q)) = 48) /\
  (forall q : Q, (2 <= q)%Q -> (q < 5)%Q ->
     bitrate (heuristic_controller (Fin q)) = 24) /\
  (forall q : Q, (5 <= q)%Q -> (q < 10)%Q ->
     bitrate (heuristic_controller (Fin q)) = 16) /\
  (forall q : Q, (10 <= q)%Q -> bitrate (heuristic_controller (Fin q)) = 12) /\
  bitrate (heuristic_controller (Fin (19 # 10))) = 48 /\
  bitrate (heuristic_controller (Fin 2)) = 24 /\
  bitrate (heuristic_controller (Fin (4999 # 1000))) = 24 /\
  bitrate (heuristic_controller (Fin 5)) = 16 /\
  bitrate (heuristic_controller (Fin (9999 # 1000))) = 16 /\
  bitrate (heuristic_controller (Fin 10)) = 12.
Proof.
  destruct (heuristic_controller_bands loss) as (B1 & B2 & B3 & B4).
  do 3 (split; [reflexivity |]).
  do 4 (split; [assumption |]).
  split.
  { intros q Hq. apply (heuristic_controller_bands (Fin q)).
    apply ltb_Fin_iff, Hq. }
  split.
  { intros q Hlo Hhi. apply (heuristic_controller_bands (Fin q)).
    - apply leb_Fin_iff, Hlo.
    - apply ltb_Fin_iff, Hhi. }
  split.
  { intros q Hlo Hhi. apply (heuristic_controller_bands (Fin q)).
    - apply leb_Fin_iff, Hlo.
    - apply ltb_Fin_iff, Hhi. }
  split.
  { intros q Hlo. apply (heuristic_controller_bands (Fin q)).
    apply leb_Fin_iff, Hlo. }
  repeat split.
Qed.

(** C3: [hybrid_controller] answers as [ml_controller] whenever the loss is
    below 5.0 and as [static_controller] whenever it is 5.0 or more, 5.0
    itself included (stated with Python's comparisons on any number, and
    again on the rationals); [static_controller] answers 32 kbps, 20 ms,
    complexity 5, no FEC for every loss. *)
Theorem hybrid_controller_dispatch (loss : pynum) (model : option predictor) :
  (ltb loss (Fin 5) = true ->
   hybrid_controller loss model = ml_controller loss model) /\
  (geb loss (Fin 5) = true ->
   hybrid_controller loss model = Some (static_controller loss)) /\
  (forall q : Q, (q < 5)%Q ->
     hybrid_controller (Fin q) model = ml_controller (Fin q) model) /\
  (forall q : Q, (5 <= q)%Q ->
     hybrid_controller (Fin q) model = Some (static_controller (Fin q))) /\
  hybrid_controller (Fin 5) model = Some (static_controller (Fin 5)) /\
  static_controller loss = mkConfig 32 20 5 false.
Proof.
  unfold hybrid_controller, geb.
  split; [intros ->; reflexivity |].
  split; [intros H; rewrite (leb_ltb_false _ _ H); reflexivity |].
  split.
  { intros q Hq. apply ltb_Fin_iff in Hq. rewrite Hq. reflexivity. }
  split.
  { intros q Hq. apply leb_Fin_iff in Hq.
    rewrite (leb_ltb_false _ _ Hq). reflexivity. }
  split; reflexivity.
Qed.

(** ** The learned controller *)

Section CandidateLoop.
Variables (loss : pynum) (model : option predictor).

Local Abbreviation score := (candidate_score loss model).

Lemma loop_invariant_step seen st cfg :
  loop_invariant loss model seen st ->
  loop_invariant loss model (seen ++ [cfg]) (ml_step loss model st cfg).
Proof.
  unfold ml_step. change (try_predict model (features cfg loss)) with (score cfg).
  destruct st as [[best |] best_score]; cbn [fst snd];
    unfold loop_invariant at 1; cbv beta iota; unfold gtb, geb.
  - intros (-> & Hinit & i & Hi & Hmax & Hfirst).
    destruct (ltb (score best) (score cfg)) eqn:Hcmp;
      unfold loop_invariant; cbv beta iota; unfold gtb, geb.
    + split; [reflexivity |].
      split; [eapply ltb_trans; eassumption |].
      exists (length seen). split; [apply list_lookup_middle; reflexivity |].
      split.
      * intros c [Hc | Hc]%elem_of_app.
        -- apply (not_above_best _ _ _ Hcmp (Hmax c Hc)).
        -- apply list_elem_of_singleton in Hc as ->. apply ltb_irrefl.
      * intros j c Hj Hlook. rewrite lookup_app_l in Hlook by exact Hj.
        apply (not_above_best _ _ _ Hcmp).
        apply Hmax. eapply list_elem_of_lookup_2; eassumption.
    + split; [reflexivity |]. split; [exact Hinit |].
      exists i. split; [apply lookup_app_l_Some; exact Hi |].
      split.
      * intros c [Hc | Hc]%elem_of_app; [apply Hmax; exact Hc |].
        apply list_elem_of_singleton in Hc as ->. exact Hcmp.
      * intros j c Hj Hlook. apply (Hfirst j c Hj).
        rewrite lookup_app_l in Hlook; [exact Hlook |].
        apply lookup_lt_Some in Hi. lia.
  - intros (-> & Hlow).
    destruct (ltb initial_best_score (score cfg)) eqn:Hcmp;
      unfold loop_invariant; cbv beta iota; unfold gtb, geb.
    + split; [reflexivity |]. split; [exact Hcmp |].
      exists (length seen). split; [apply list_lookup_middle; reflexivity |].
      split.
      * intros c [Hc | Hc]%elem_of_app.
        -- apply (not_above_best _ _ _ Hcmp (Hlow c Hc)).
        -- apply list_elem_of_singleton in Hc as ->. apply ltb_irrefl.
      * intros j c Hj Hlook. rewrite lookup_app_l in Hlook by exact Hj.
        apply (not_above_best _ _ _ Hcmp).
        apply Hlow. eapply list_elem_of_lookup_2; eassumption.
    + split; [reflexivity |].
      intros c [Hc | Hc]%elem_of_app; [apply Hlow; exact Hc |].
      apply list_elem_of_singleton in Hc as ->. exact Hcmp.
Qed.

Lemma loop_invariant_fold rest : forall seen st,
  loop_invariant loss model seen st ->
  loop_invariant loss model (seen ++ rest) (fold_left (ml_step loss model) rest st).
Proof.
  induction rest as [| cfg rest IH]; intros seen st Hinv; simpl.
  - rewrite app_nil_r. exact Hinv.
  - rewrite (cons_middle cfg seen rest), app_assoc.
    apply IH, loop_invariant_step, Hinv.
Qed.

Lemma loop_invariant_result :
  loop_invariant loss model (generate_all_configs tt)
    (fold_left (ml_step loss model) (generate_all_configs tt)
       (None, initial_best_score)).
Proof.
  apply (loop_invariant_fold (generate_all_configs tt) []).
  split; [reflexivity |]. intros c Hc. apply elem_of_nil in Hc. destruct Hc.
Qed.

End CandidateLoop.

(** C1 (amended): the score of a candidate is the predictor's answer on
    [bitrate, frame_size, use_fec as 0/1, loss], or 0.0 when the predictor
    raises on it.  When [ml_controller] returns a configuration, it is a
    grid entry whose score is above -1e9, no grid entry has a greater
    score, and no entry generated before it has a score greater than or
    equal to its own (first-seen wins).  It returns Python's [None] exactly
    when no candidate's score is above the initial best score -1e9. *)
Theorem ml_controller_first_argmax (loss : pynum) (model : option predictor) :
  (forall cfg : config,
     features cfg loss =
     [of_Z (bitrate cfg); of_Z (frame_size cfg);
      of_Z (if use_fec cfg then 1 else 0); loss]) /\
  (forall (m : predictor) (feats : list pynum),
     try_predict (Some m) feats =
     match m feats with Some pred => pred | None => Fin 0 end) /\
  match ml_controller loss model with
  | Some best =>
      exists i : nat,
        generate_all_configs tt !! i = Some best /\
        gtb (try_predict model (features best loss)) (of_Z (-1000000000)) = true /\
        (forall c, c ∈ generate_all_configs tt ->
           gtb (try_predict model (features c loss))
               (try_predict model (features best loss)) = false) /\
        (forall (j : nat) c, (j < i)%nat ->
           generate_all_configs tt !! j = Some c ->
           geb (try_predict model (features c loss))
               (try_predict model (features best loss)) = false)
  | None =>
      forall c, c ∈ generate_all_configs tt ->
        gtb (try_predict model (features c loss)) (of_Z (-1000000000)) = false
  end.
Proof.
  split; [intros [b f c []]; reflexivity |].
  split; [reflexivity |].
  pose proof (loop_invariant_result loss model) as Hinv.
  unfold ml_controller.
  destruct (fold_left _ _ _) as [[best |] best_score]; simpl in *.
  - destruct Hinv as (-> & Hinit & i & Hi & Hmax & Hfirst).
    exists i. auto.
  - destruct Hinv as (_ & Hlow). exact Hlow.
Qed.

(** C1 as stated fails: a predictor whose answers are all at or below -1e9
    (here -2e9 on every candidate) leaves [best] at Python's [None], so no
    configuration, maximal or otherwise, is returned. *)
Lemma ml_controller_none_below_initial_score :
  ml_controller (of_Z 0) (Some (fun _ => Some (of_Z (-2000000000)))) = None /\
  ~ (forall (loss : pynum) (model : option predictor),
       exists best : config,
         ml_controller loss model = Some best /\
         best ∈ generate_all_configs tt /\
         forall c, c ∈ generate_all_configs tt ->
           gtb (try_predict model (features c loss))
               (try_predict model (features best loss)) = false).
Proof.
  assert (Hnone :
    ml_controller (of_Z 0) (Some (fun _ => Some (of_Z (-2000000000)))) = None)
    by (vm_compute; reflexivity).
  split; [exact Hnone |].
  intros Hall.
  destruct (Hall (of_Z 0) (Some (fun _ => Some (of_Z (-2000000000)))))
    as (best & Hbest & _).
  rewrite Hnone in Hbest. discriminate.
Qed.

(** ** Fallback of the learned controller *)

Lemma ml_step_zero_keeps (loss : pynum) (model : option predictor)
    (best : config) (rest : list config) :
  (forall c, c ∈ rest -> try_predict model (features c loss) = Fin 0) ->
  fold_left (ml_step loss model) rest (Some best, Fin 0) = (Some best, Fin 0).
Proof.
  induction rest as [| c rest IH]; intros Hzero; [reflexivity |].
  cbn [fold_left]. unfold ml_step at 2.
  rewrite (Hzero c) by apply list_elem_of_here.
  cbn [snd]. replace (gtb (Fin 0) (Fin 0)) with false by reflexivity.
  apply IH. intros c' Hc'. apply Hzero, list_elem_of_further, Hc'.
Qed.

Lemma ml_loop_all_zero (loss : pynum) (model : option predictor)
    (first : config) (rest : list config) :
  (forall c, c ∈ first :: rest -> try_predict model (features c loss) = Fin 0) ->
  fst (fold_left (ml_step loss model) (first :: rest) (None, initial_best_score))
  = Some first.
Proof.
  intros Hzero. cbn [fold_left]. unfold ml_step at 2.
  rewrite (Hzero first) by apply list_elem_of_here.
  cbn [snd]. replace (gtb (Fin 0) initial_best_score) with true by reflexivity.
  rewrite ml_step_zero_keeps; [reflexivity |].
  intros c Hc. apply Hzero, list_elem_of_further, Hc.
Qed.

(** [load_model] hands back Python's [None], without raising, when the
    artifact is absent and when [joblib.load] fails on it. *)
Lemma load_model_unavailable (E : externals) (w : World) :
  files w !! MODEL_PATH E = None \/
  (exists bytes, files w !! MODEL_PATH E = Some bytes /\
                 joblib_load E bytes = None) ->
  load_model E w = (Ret None, w).
Proof.
  unfold load_model. intros [-> | (bytes & -> & ->)]; reflexivity.
Qed.

(** C10: when the model is Python's [None], or [predict] raises on every
    candidate, every candidate is scored 0.0 and [ml_controller] returns
    (rather than raises) the first grid entry, 8 kbps / 20 ms / complexity
    5 / no FEC; [hybrid_controller] returns the same below 5.0. *)
Theorem ml_controller_unusable_predictor
    (loss : pynum) (model : option predictor) :
  model = None \/
  (exists m : predictor,
     model = Some m /\
     forall cfg, cfg ∈ generate_all_configs tt -> m (features cfg loss) = None) ->
  (forall cfg, cfg ∈ generate_all_configs tt ->
     try_predict model (features cfg loss) = Fin 0) /\
  ml_controller loss model = Some (mkConfig 8 20 5 false) /\
  (ltb loss (Fin 5) = true ->
   hybrid_controller loss model = Some (mkConfig 8 20 5 false)).
Proof.
  intros Hunusable.
  assert (Hzero : forall cfg, cfg ∈ generate_all_configs tt ->
                    try_predict model (features cfg loss) = Fin 0).
  { destruct Hunusable as [-> | (m & -> & Hraise)]; [reflexivity |].
    intros cfg Hcfg. unfold try_predict. rewrite (Hraise cfg Hcfg). reflexivity. }
  assert (Hml : ml_controller loss model = Some (mkConfig 8 20 5 false)).
  { unfold ml_controller.
    assert (Hgrid : generate_all_configs tt =
                    mkConfig 8 20 5 false :: tl (generate_all_configs tt))
      by (vm_compute; reflexivity).
    rewrite Hgrid in Hzero |- *. apply ml_loop_all_zero, Hzero. }
  split; [exact Hzero |]. split; [exact Hml |].
  intros Hlow. unfold hybrid_controller. rewrite Hlow. exact Hml.
Qed.

(** C10 applied to an absent model at loss 0. *)
Lemma ml_controller_unusable_predictor_witness :
  (@None predictor = None \/
   (exists m : predictor,
      None = Some m /\
      forall cfg, cfg ∈ generate_all_configs tt ->
        m (features cfg (of_Z 0)) = None)) /\
  ml_controller (of_Z 0) None = Some (mkConfig 8 20 5 false).
Proof.
  split; [left; reflexivity |].
  exact (proj1 (proj2 (ml_controller_unusable_predictor (of_Z 0) None
                         (or_introl eq_refl)))).
Defined.

(** ** The codec pipeline *)

Section PipelineFacts.
Context (E : externals).
Variables (input : string) (b f c : Z) (fec : bool) (loss : pynum).

Local Abbreviation inter := (intermediate_opus_file E input b f c fec loss).
Local Abbreviation final := (final_wav_file E input b f c fec loss).
Local Abbreviation enc := (encode_command input b f c fec inter).
Local Abbreviation dec := (decode_command E loss inter final).

(** [process_audio_file] in terms of what the two child processes do. *)
Lemma process_audio_file_run (w : World) :
  process_audio_file E input b f c fec loss w =
  match run_process E enc (files w) (clock w) with
  | (Exited st1, fs1, t1) =>
      if st1 =? 0 then
        match run_process E dec fs1 t1 with
        | (Exited st2, fs2, t2) =>
            (Ret (if st2 =? 0 then Some final else None),
             mkWorld (delete inter fs2) t2 ((procs w ++ [enc]) ++ [dec]))
        | (SpawnFailed, fs2, t2) =>
            (Raise (LibraryError "subprocess"),
             mkWorld fs2 t2 ((procs w ++ [enc]) ++ [dec]))
        end
      else (Ret None, mkWorld fs1 t1 (procs w ++ [enc]))
  | (SpawnFailed, fs1, t1) =>
      (Raise (LibraryError "subprocess"), mkWorld fs1 t1 (procs w ++ [enc]))
  end.
Proof.
  unfold process_audio_file, bind, try_except, subprocess_run.
  destruct (run_process E enc (files w) (clock w)) as [[[st1 |] fs1] t1];
    [| reflexivity].
  destruct st1 as [| p | p]; try reflexivity.
  cbn. destruct (run_process E dec fs1 t1) as [[[st2 |] fs2] t2];
    [| reflexivity].
  destruct st2 as [| p | p]; reflexivity.
Qed.

(** The only exception that leaves [process_audio_file] is the one of a
    child process that could not be started. *)
Lemma process_audio_file_raises (w w' : World) (e : exn) :
  process_audio_file E input b f c fec loss w = (Raise e, w') ->
  e = LibraryError "subprocess".
Proof.
  rewrite process_audio_file_run.
  destruct (run_process E enc _ _) as [[[st1 |] fs1] t1]; [| congruence].
  destruct (st1 =? 0); [| congruence].
  destruct (run_process E dec _ _) as [[[st2 |] fs2] t2]; congruence.
Qed.

(** A returned path is the decoded file, after exactly one encoder and one
    decoder run, and the intermediate file is gone. *)
Lemma process_audio_file_success (w w' : World) (out : string) :
  process_audio_file E input b f c fec loss w = (Ret (Some out), w') ->
  out = final /\
  procs w' = procs w ++ [enc; dec] /\
  files w' !! inter = None.
Proof.
  rewrite process_audio_file_run.
  destruct (run_process E enc _ _) as [[[st1 |] fs1] t1]; [| congruence].
  destruct (st1 =? 0); [| congruence].
  destruct (run_process E dec _ _) as [[[st2 |] fs2] t2]; [| congruence].
  destruct (st2 =? 0); [| congruence].
  intros [= <- <-]. cbn. rewrite <- app_assoc.
  repeat split. apply lookup_delete_eq.
Qed.

(** A nonzero exit status of the encoder: Python's [None] is returned and
    the world is left as the encoder left it, nothing being unlinked. *)
Lemma process_audio_file_encode_failure (w : World) st1 fs1 t1 :
  run_process E enc (files w) (clock w) = (Exited st1, fs1, t1) ->
  st1 <> 0 ->
  process_audio_file E input b f c fec loss w =
  (Ret None, mkWorld fs1 t1 (procs w ++ [enc])).
Proof.
  intros Hrun Hst. rewrite process_audio_file_run, Hrun.
  apply Z.eqb_neq in Hst. rewrite Hst. reflexivity.
Qed.

(** A nonzero exit status of the decoder: Python's [None] is returned and
    the intermediate file is unlinked. *)
Lemma process_audio_file_decode_failure (w : World) fs1 t1 st2 fs2 t2 :
  run_process E enc (files w) (clock w) = (Exited 0, fs1, t1) ->
  run_process E dec fs1 t1 = (Exited st2, fs2, t2) ->
  st2 <> 0 ->
  process_audio_file E input b f c fec loss w =
  (Ret None, mkWorld (delete inter fs2) t2 (procs w ++ [enc; dec])).
Proof.
  intros Henc Hdec Hst. rewrite process_audio_file_run, Henc, Hdec.
  apply Z.eqb_neq in Hst. rewrite Hst. cbn. rewrite <- app_assoc. reflexivity.
Qed.

End PipelineFacts.

(** C7 at its failing input: an encoder that has started writing its output
    and then exits with status 1.  [process_audio_file] returns Python's
    [None] and the intermediate [.opus] file is still on disk, whereas the
    decode-failure and success paths unlink it
    ([process_audio_file_decode_failure], [process_audio_file_success]). *)
Theorem process_audio_file_encode_failure_leaves_opus :
  fst (process_audio_file Demo.encoder_fails Demo.clip 32 20 5 false (of_Z 5)
         Demo.w0) = Ret None /\
  files (snd (process_audio_file Demo.encoder_fails Demo.clip 32 20 5 false
                (of_Z 5) Demo.w0))
    !! intermediate_opus_file Demo.encoder_fails Demo.clip 32 20 5 false (of_Z 5)
  = Some "OggS" /\
  intermediate_opus_file Demo.encoder_fails Demo.clip 32 20 5 false (of_Z 5)
  = "/home/u/adaptive_opus/processed_audio/clip_b32_f20_c5_nofec_l5.opus".
Proof. vm_compute. repeat split. Qed.

(** ** The quality scorer *)

Section QualityFacts.
Context (E : externals).

Lemma sf_read_world (p : string) (w w' : World) r :
  sf_read E p w = (r, w') -> w' = w.
Proof.
  unfold sf_read. destruct (files w !! p) as [bytes |]; [| congruence].
  destruct (sf_decode E bytes); congruence.
Qed.

(** [get_audio_quality] in terms of the two reads and the scorer. *)
Lemma get_audio_quality_run (o p : string) (w : World) :
  get_audio_quality E o p w =
  (Ret match fst (sf_read E o w), fst (sf_read E p w) with
       | Ret (ref_data, ref_fs), Ret (deg_data, deg_fs) =>
           if negb (ref_fs =? 16000) || negb (deg_fs =? 16000) then None
           else
             match pesq E 16000 (fst (pesq_inputs ref_data deg_data))
                     (snd (pesq_inputs ref_data deg_data)) "wb" with
             | Some score => Some score
             | None => Some (Fin 1)
             end
       | _, _ => None
       end, w).
Proof.
  unfold get_audio_quality, bind, try_except.
  destruct (sf_read E o w) as [[[ref_data ref_fs] | e] w1] eqn:Hr;
    apply sf_read_world in Hr as ->; [| reflexivity].
  destruct (sf_read E p w) as [[[deg_data deg_fs] | e] w1] eqn:Hd;
    apply sf_read_world in Hd as ->; [| cbn; destruct (sf_read E p w) as [[[]|]]; reflexivity].
  cbn. unfold REQUIRED_SAMPLE_RATE.
  destruct (negb (ref_fs =? 16000) || negb (deg_fs =? 16000)); [reflexivity |].
  unfold pesq_inputs, to_mono, PESQ_MODE. cbn.
  destruct (pesq E 16000 _ _ "wb"); reflexivity.
Qed.

End QualityFacts.

(** ** The sweep worker *)

Section WorkerFacts.
Context (E : externals).

Local Abbreviation processed params w :=
  (process_audio_file E (original_file params) (p_bitrate params)
     (p_frame_size params) (p_complexity params) (p_use_fec params)
     (packet_loss_perc params) w).

(** [run_single_combination] in terms of the pipeline and the scorer. *)
Lemma run_single_combination_run (params : job_params) (w : World) :
  run_single_combination E params w =
  match processed params w with
  | (Raise _, w1) => (Ret None, w1)
  | (Ret None, w1) => (Ret None, w1)
  | (Ret (Some pf), w1) =>
      match get_audio_quality E (original_file params) pf w1 with
      | (Raise _, w2) => (Ret None, w2)
      | (Ret score, w2) =>
          (Ret match score with
               | Some s => if truthy s then Some (result_data E params s) else None
               | None => None
               end,
           snd (unlink pf w2))
      end
  end.
Proof.
  unfold run_single_combination, try_except, bind.
  destruct (processed params w) as [[[pf |] | e] w1]; try reflexivity.
  destruct (get_audio_quality E (original_file params) pf w1)
    as [[[s |] | e] w2]; try reflexivity.
  destruct (truthy s); reflexivity.
Qed.

(** The worker returns; it never raises. *)
Lemma run_single_combination_returns (params : job_params) (w : World) :
  exists r, fst (run_single_combination E params w) = Ret r.
Proof.
  rewrite run_single_combination_run.
  destruct (processed params w) as [[[pf |] | e] w1]; eauto.
  destruct (get_audio_quality E (original_file params) pf w1)
    as [[score | e] w2]; eauto.
Qed.

(** The loop appends to [results_list] the samples of the worker calls, in
    arrival order. *)
Lemma collect_loop_run (arrival : list job_params) :
  forall (results_list : list row) (w : World),
    fst (collect_loop E arrival results_list w) =
    Ret (results_list ++ omap sample_of (job_outcomes E arrival w)).
Proof.
  induction arrival as [| params rest IH]; intros results_list w.
  - cbn. rewrite app_nil_r. reflexivity.
  - cbn [collect_loop job_outcomes]. unfold bind.
    destruct (run_single_combination_returns params w) as [r Hr].
    destruct (run_single_combination E params w) as [res w1].
    cbn [fst snd] in *. subst res. rewrite IH.
    cbn [omap list_omap]. unfold sample_of at 2. cbn [snd].
    destruct r as [r |]; cbn [collect_step];
      [rewrite <- app_assoc |]; reflexivity.
Qed.

Lemma job_outcomes_jobs (arrival : list job_params) :
  forall w, map fst (job_outcomes E arrival w) = arrival.
Proof.
  induction arrival as [| params rest IH]; intros w; [reflexivity |].
  cbn. rewrite IH. reflexivity.
Qed.

End WorkerFacts.

(** C6: [get_audio_quality] returns the floor score 1.0 when both files
    read as 16 kHz audio and the scorer raises on the pair, and the worker
    then returns a row carrying that score; it returns Python's [None] when a
    file cannot be read or a sample rate is not 16000, and the worker then
    returns [None], that is, no row. *)
Theorem get_audio_quality_floor_and_drop (E : externals) :
  (forall (o p : string) (w : World) ref_data deg_data,
     fst (sf_read E o w) = Ret (ref_data, 16000) ->
     fst (sf_read E p w) = Ret (deg_data, 16000) ->
     pesq E 16000 (fst (pesq_inputs ref_data deg_data))
       (snd (pesq_inputs ref_data deg_data)) "wb" = None ->
     get_audio_quality E o p w = (Ret (Some (Fin 1)), w)) /\
  (forall (o p : string) (w : World),
     (exists e, fst (sf_read E o w) = Raise e) \/
     (exists e, fst (sf_read E p w) = Raise e) \/
     (exists ref_data ref_fs deg_data deg_fs,
        fst (sf_read E o w) = Ret (ref_data, ref_fs) /\
        fst (sf_read E p w) = Ret (deg_data, deg_fs) /\
        (ref_fs <> 16000 \/ deg_fs <> 16000)) ->
     get_audio_quality E o p w = (Ret None, w)) /\
  (forall (params : job_params) (w w1 : World) (pf : string),
     process_audio_file E (original_file params) (p_bitrate params)
       (p_frame_size params) (p_complexity params) (p_use_fec params)
       (packet_loss_perc params) w = (Ret (Some pf), w1) ->
     (get_audio_quality E (original_file params) pf w1 = (Ret (Some (Fin 1)), w1) ->
      fst (run_single_combination E params w) =
      Ret (Some (mkRow (path_name E (original_file params))
                   (p_bitrate params) (p_frame_size params)
                   (p_complexity params) (p_use_fec params)
                   (packet_loss_perc params) (Fin 1)))) /\
     (get_audio_quality E (original_file params) pf w1 = (Ret None, w1) ->
      fst (run_single_combination E params w) = Ret None)).
Proof.
  split; [| split].
  - intros o p w ref_data deg_data Hr Hd Hpesq.
    rewrite get_audio_quality_run, Hr, Hd, Hpesq. reflexivity.
  - intros o p w Hbad. rewrite get_audio_quality_run.
    destruct Hbad as [[e ->] | [[e ->] | Hrate]].
    + reflexivity.
    + destruct (fst (sf_read E o w)) as [[] |]; reflexivity.
    + destruct Hrate as (ref_data & ref_fs & deg_data & deg_fs & -> & -> & Hne).
      assert (Hor : negb (ref_fs =? 16000) || negb (deg_fs =? 16000) = true).
      { apply orb_true_iff.
        destruct Hne as [Hne | Hne]; [left | right];
          apply negb_true_iff, Z.eqb_neq, Hne. }
      rewrite Hor. reflexivity.
  - intros params w w1 pf Hproc. split; intros Hq;
      rewrite run_single_combination_run, Hproc, Hq; reflexivity.
Qed.

(** C6 applied to the decoded file of a demo job whose scorer raises. *)
Lemma get_audio_quality_floor_and_drop_witness :
  fst (sf_read Demo.scorer_raises Demo.clip Demo.after_pipeline) =
    Ret (Arr1 [3; 1; 4; 1; 5], 16000) /\
  fst (sf_read Demo.scorer_raises Demo.decoded Demo.after_pipeline) =
    Ret (Arr1 [3; 1; 4; 1; 5], 16000) /\
  get_audio_quality Demo.scorer_raises Demo.clip Demo.decoded Demo.after_pipeline =
    (Ret (Some (Fin 1)), Demo.after_pipeline).
Proof.
  assert (Href : fst (sf_read Demo.scorer_raises Demo.clip Demo.after_pipeline) =
                 Ret (Arr1 [3; 1; 4; 1; 5], 16000)) by (vm_compute; reflexivity).
  assert (Hdeg : fst (sf_read Demo.scorer_raises Demo.decoded Demo.after_pipeline) =
                 Ret (Arr1 [3; 1; 4; 1; 5], 16000)) by (vm_compute; reflexivity).
  split; [exact Href |]. split; [exact Hdeg |].
  exact (proj1 (get_audio_quality_floor_and_drop Demo.scorer_raises)
           Demo.clip Demo.decoded Demo.after_pipeline _ _ Href Hdeg eq_refl).
Defined.

(** C8: a worker call never raises, and it returns Python's [None] whenever
    the pipeline raises or returns [None], and whenever the scorer raises or
    returns a value that [if not score] rejects ([None], or a zero score,
    which PESQ's scale does not contain); otherwise it returns the job's row.
    For any order of arrival the collecting loop runs every job, ends
    without an exception, and its result list holds exactly the rows of the
    worker calls that returned one, in arrival order. *)
Theorem sweep_contains_job_failures (E : externals)
    (arrival : list job_params) (w : World) :
  (forall (params : job_params) (w0 : World),
     (exists r, fst (run_single_combination E params w0) = Ret r) /\
     ((exists e,
         fst (process_audio_file E (original_file params) (p_bitrate params)
                (p_frame_size params) (p_complexity params) (p_use_fec params)
                (packet_loss_perc params) w0) = Raise e) \/
      fst (process_audio_file E (original_file params) (p_bitrate params)
             (p_frame_size params) (p_complexity params) (p_use_fec params)
             (packet_loss_perc params) w0) = Ret None ->
      fst (run_single_combination E params w0) = Ret None) /\
     (forall (pf : string) (w1 : World),
        process_audio_file E (original_file params) (p_bitrate params)
          (p_frame_size params) (p_complexity params) (p_use_fec params)
          (packet_loss_perc params) w0 = (Ret (Some pf), w1) ->
        ((exists e,
            fst (get_audio_quality E (original_file params) pf w1) = Raise e) \/
         (exists score,
            fst (get_audio_quality E (original_file params) pf w1) = Ret score /\
            not_score score = true) ->
         fst (run_single_combination E params w0) = Ret None) /\
        (forall s : pynum,
           fst (get_audio_quality E (original_file params) pf w1) = Ret (Some s) ->
           truthy s = true ->
           fst (run_single_combination E params w0) =
           Ret (Some (result_data E params s))))) /\
  map fst (job_outcomes E arrival w) = arrival /\
  (forall params outcome,
     (params, outcome) ∈ job_outcomes E arrival w -> exists r, outcome = Ret r) /\
  fst (collect_loop E arrival [] w) =
  Ret (omap sample_of (job_outcomes E arrival w)) /\
  fst (run_experiment_parallel E arrival w) =
  Ret (Some (omap sample_of (job_outcomes E arrival w))) /\
  (forall r : row,
     r ∈ omap sample_of (job_outcomes E arrival w) <->
     exists params, (params, Ret (Some r)) ∈ job_outcomes E arrival w).
Proof.
  split; [| split; [| split; [| split; [| split]]]].
  - intros params w0.
    split; [apply run_single_combination_returns |].
    rewrite run_single_combination_run. split.
    + intros [[e He] | He];
        destruct (process_audio_file E _ _ _ _ _ _ w0) as [[[pf |] | e'] w1];
        cbn in He; try discriminate; reflexivity.
    + intros pf w1 ->. split.
      * intros [[e He] | (score & He & Hnot)];
          destruct (get_audio_quality E _ pf w1) as [[score' | e'] w2];
          cbn in He; try discriminate; [reflexivity |].
        injection He as ->. cbn.
        destruct score as [s |]; [| reflexivity].
        cbn in Hnot. apply negb_true_iff in Hnot. rewrite Hnot. reflexivity.
      * intros s He Hs.
        destruct (get_audio_quality E _ pf w1) as [[score' | e'] w2];
          cbn in He; try discriminate.
        injection He as ->. cbn. rewrite Hs. reflexivity.
  - apply job_outcomes_jobs.
  - revert w. induction arrival as [| p rest IH]; intros w params outcome Hin.
    + apply elem_of_nil in Hin. destruct Hin.
    + cbn [job_outcomes] in Hin. apply elem_of_cons in Hin as [Heq | Hin].
      * injection Heq as -> ->. apply run_single_combination_returns.
      * eapply IH, Hin.
  - rewrite collect_loop_run. reflexivity.
  - unfold run_experiment_parallel, try_except, bind.
    pose proof (collect_loop_run E arrival [] w) as Hloop.
    destruct (collect_loop E arrival [] w) as [res w1]. cbn in Hloop.
    subst res. reflexivity.
  - intros r. rewrite list_elem_of_omap. split.
    + intros ([params outcome] & Hin & Hsample).
      exists params. unfold sample_of in Hsample. cbn in Hsample.
      destruct outcome as [[r' |] | e]; try discriminate.
      injection Hsample as ->. exact Hin.
    + intros (params & Hin). exists (params, Ret (Some r)). split; [exact Hin |].
      reflexivity.
Qed.

(** C8 applied to a sweep of four jobs, two of which fail in the encoder. *)
Lemma sweep_contains_job_failures_witness :
  fst (run_experiment_parallel Demo.flaky
         [Demo.job_at 8; Demo.job_at 32; Demo.job_at 8; Demo.job_at 12] Demo.w0) =
  Ret (Some (omap sample_of
               (job_outcomes Demo.flaky
                  [Demo.job_at 8; Demo.job_at 32; Demo.job_at 8; Demo.job_at 12]
                  Demo.w0))) /\
  omap sample_of
    (job_outcomes Demo.flaky
       [Demo.job_at 8; Demo.job_at 32; Demo.job_at 8; Demo.job_at 12] Demo.w0) =
  [mkRow "clip.wav" 32 20 5 false (of_Z 5) (Fin (7 # 2));
   mkRow "clip.wav" 12 20 5 false (of_Z 5) (Fin (7 # 2))].
Proof.
  split.
  - exact (proj1 (proj2 (proj2 (proj2 (proj2
             (sweep_contains_job_failures Demo.flaky
                [Demo.job_at 8; Demo.job_at 32; Demo.job_at 8; Demo.job_at 12]
                Demo.w0)))))).
  - vm_compute. reflexivity.
Defined.

(** ** The evaluation harness *)

Lemma known_controller_eqb (controller_type : string) :
  known_controller controller_type <->
  String.eqb controller_type "static"
  || String.eqb controller_type "heuristic"
  || String.eqb controller_type "ml_adaptive"
  || String.eqb controller_type "hybrid" = true.
Proof.
  unfold known_controller.
  rewrite !elem_of_cons, elem_of_nil, !orb_true_iff, !String.eqb_eq. tauto.
Qed.

Lemma select_controller_known ctype (loss : pynum) (model : option predictor)
    (w : World) :
  known_controller ctype ->
  select_controller ctype loss model w =
  (Ret (controller_choice ctype loss model), w).
Proof.
  intros Hknown%known_controller_eqb.
  unfold select_controller, controller_choice.
  destruct (String.eqb ctype "static"); [reflexivity |].
  destruct (String.eqb ctype "heuristic"); [reflexivity |].
  destruct (String.eqb ctype "ml_adaptive"); [reflexivity |].
  destruct (String.eqb ctype "hybrid"); [reflexivity | discriminate].
Qed.

Lemma select_controller_unknown ctype (loss : pynum) (model : option predictor)
    (w : World) :
  ~ known_controller ctype ->
  select_controller ctype loss model w =
  (Raise (ValueError "Unknown controller type"), w).
Proof.
  rewrite known_controller_eqb. intros Hunknown.
  unfold select_controller.
  destruct (String.eqb ctype "static"); [destruct Hunknown; reflexivity |].
  destruct (String.eqb ctype "heuristic"); [destruct Hunknown; reflexivity |].
  destruct (String.eqb ctype "ml_adaptive"); [destruct Hunknown; reflexivity |].
  destruct (String.eqb ctype "hybrid"); [destruct Hunknown; reflexivity |].
  reflexivity.
Qed.

Lemma controller_choice_static (loss : pynum) (model : option predictor) :
  controller_choice "static" loss model = Some (static_controller loss).
Proof. reflexivity. Qed.

Lemma controller_choice_heuristic (loss : pynum) (model : option predictor) :
  controller_choice "heuristic" loss model = Some (heuristic_controller loss).
Proof. reflexivity. Qed.

Lemma controller_choice_ml (loss : pynum) (model : option predictor) :
  controller_choice "ml_adaptive" loss model = ml_controller loss model.
Proof.
  unfold controller_choice.
  replace (String.eqb "ml_adaptive" "static") with false by reflexivity.
  replace (String.eqb "ml_adaptive" "heuristic") with false by reflexivity.
  replace (String.eqb "ml_adaptive" "ml_adaptive") with true by reflexivity.
  reflexivity.
Qed.

Lemma controller_choice_hybrid (loss : pynum) (model : option predictor) :
  controller_choice "hybrid" loss model = hybrid_controller loss model.
Proof.
  unfold controller_choice.
  replace (String.eqb "hybrid" "static") with false by reflexivity.
  replace (String.eqb "hybrid" "heuristic") with false by reflexivity.
  replace (String.eqb "hybrid" "ml_adaptive") with false by reflexivity.
  reflexivity.
Qed.

Section HarnessFacts.
Context (E : externals).

(** Preparing the input starts no child process. *)
Lemma prepare_input_procs (audio_path : string) (w w1 : World) r :
  prepare_input E audio_path w = (r, w1) -> procs w1 = procs w.
Proof.
  unfold prepare_input, bind, time_time.
  destruct (sf_read E audio_path w) as [[[data sr] | e] w'] eqn:Hread;
    apply sf_read_world in Hread as ->; [| intros [= _ <-]; reflexivity].
  cbn [fst snd]. unfold resample_to_16khz.
  set (mono := if 1 <? ndim data then column0 data else data).
  destruct (sr =? 16000);
    [| destruct (sr =? 0); [| destruct (scipy_resample E _ _)]]; cbn;
    unfold sf_write;
    try (destruct (sf_write_file E _ _) as [bytes | [partial |]]);
    unfold ret, raise; intros [= _ <-]; reflexivity.
Qed.

(** [run_audio_simulation] in terms of its four stages. *)
Lemma run_audio_simulation_run (audio_path : string) (loss : pynum)
    (ctype : string) (model : option predictor) (w : World) :
  run_audio_simulation E audio_path loss ctype model w =
  match prepare_input E audio_path w with
  | (Raise e, w1) => (Raise e, w1)
  | (Ret (start, temp_input), w1) =>
      match select_controller ctype loss model w1 with
      | (Raise e, w1') => (Raise e, w1')
      | (Ret None, w1') =>
          (Raise (TypeError "'NoneType' object is not subscriptable"), w1')
      | (Ret (Some cfg), w1') =>
          match process_audio_file E temp_input (bitrate cfg) (frame_size cfg)
                  (complexity cfg) (use_fec cfg) loss w1' with
          | (Raise e, w2) => (Raise e, w2)
          | (Ret None, w2) => (Ret None, snd (unlink temp_input w2))
          | (Ret (Some pf), w2) =>
              match get_audio_quality E temp_input pf w2 with
              | (Raise e, w3) => (Raise e, w3)
              | (Ret mos, w3) =>
                  (Ret (Some (mkMetrics mos cfg (float_sub E (clock w3) start) pf)),
                   snd (unlink temp_input w3))
              end
          end
      end
  end.
Proof.
  unfold run_audio_simulation, bind.
  destruct (prepare_input E audio_path w) as [[[start temp_input] | e] w1];
    [| reflexivity].
  cbn [fst snd].
  destruct (select_controller ctype loss model w1) as [[[cfg |] | e] w1'];
    try reflexivity.
  destruct (process_audio_file E temp_input (bitrate cfg) (frame_size cfg)
              (complexity cfg) (use_fec cfg) loss w1')
    as [[[pf |] | e] w2]; reflexivity.
Qed.

(** A run that returns metrics: the configuration is the known controller's
    decision at the loss passed in, and the pipeline ran once on the
    temporary input with that configuration and that same loss. *)
Lemma run_audio_simulation_metrics (audio_path : string) (loss : pynum)
    (ctype : string) (model : option predictor) (w w' : World) (m : metrics) :
  run_audio_simulation E audio_path loss ctype model w = (Ret (Some m), w') ->
  known_controller ctype /\
  controller_choice ctype loss model = Some (m_config m) /\
  exists (start : Q) (temp_input : string) (w1 : World),
    prepare_input E audio_path w = (Ret (start, temp_input), w1) /\
    processed_file m =
      final_wav_file E temp_input (bitrate (m_config m)) (frame_size (m_config m))
        (complexity (m_config m)) (use_fec (m_config m)) loss /\
    procs w' = procs w ++
      [encode_command temp_input (bitrate (m_config m)) (frame_size (m_config m))
         (complexity (m_config m)) (use_fec (m_config m))
         (intermediate_opus_file E temp_input (bitrate (m_config m))
            (frame_size (m_config m)) (complexity (m_config m))
            (use_fec (m_config m)) loss);
       decode_command E loss
         (intermediate_opus_file E temp_input (bitrate (m_config m))
            (frame_size (m_config m)) (complexity (m_config m))
            (use_fec (m_config m)) loss)
         (final_wav_file E temp_input (bitrate (m_config m))
            (frame_size (m_config m)) (complexity (m_config m))
            (use_fec (m_config m)) loss)].
Proof.
  rewrite run_audio_simulation_run.
  destruct (prepare_input E audio_path w) as [[[start temp_input] | e] w1] eqn:Hprep;
    [| congruence].
  destruct (decide (known_controller ctype)) as [Hknown | Hunknown];
    [| rewrite select_controller_unknown by exact Hunknown; congruence].
  rewrite select_controller_known by exact Hknown.
  destruct (controller_choice ctype loss model) as [cfg |] eqn:Hchoice;
    [| congruence].
  destruct (process_audio_file E temp_input _ _ _ _ loss w1)
    as [[[pf |] | e] w2] eqn:Hproc; try congruence.
  apply process_audio_file_success in Hproc as (-> & Hprocs & _).
  pose proof (get_audio_quality_run E temp_input
                (final_wav_file E temp_input (bitrate cfg) (frame_size cfg)
                   (complexity cfg) (use_fec cfg) loss) w2) as Hq.
  rewrite Hq. intros [= <- <-]. cbn.
  split; [exact Hknown |]. split; [reflexivity |].
  exists start, temp_input, w1. split; [reflexivity |]. split; [reflexivity |].
  rewrite Hprocs. apply prepare_input_procs in Hprep. rewrite Hprep. reflexivity.
Qed.

End HarnessFacts.

(** C9 (amended): once the input has been prepared, [run_audio_simulation]
    raises [ValueError("Unknown controller type")] exactly when the
    controller name is not one of the four, and then no child process has
    been started.  For a known name whose controller gives a configuration,
    a nonzero exit status of the encoder or of the decoder (the pipeline
    returning Python's [None]) makes it return [None], and a scorer that
    returns [None] after a successful pipeline makes it return metrics whose
    [mos] is [None].  It does raise for a known name in two cases, and only
    in these: [TypeError] when the controller gave Python's [None], and the
    exception of [subprocess.run] when a codec program cannot be started. *)
Theorem run_audio_simulation_failure_modes (E : externals)
    (audio_path : string) (loss : pynum) (ctype : string)
    (model : option predictor) (w : World)
    (start : Q) (temp_input : string) (w1 : World) :
  prepare_input E audio_path w = (Ret (start, temp_input), w1) ->
  (~ known_controller ctype ->
   run_audio_simulation E audio_path loss ctype model w =
   (Raise (ValueError "Unknown controller type"), w1) /\
   procs w1 = procs w) /\
  (known_controller ctype ->
   forall w', run_audio_simulation E audio_path loss ctype model w <>
              (Raise (ValueError "Unknown controller type"), w')) /\
  (known_controller ctype ->
   controller_choice ctype loss model = None ->
   run_audio_simulation E audio_path loss ctype model w =
   (Raise (TypeError "'NoneType' object is not subscriptable"), w1)) /\
  (known_controller ctype ->
   forall cfg : config,
     controller_choice ctype loss model = Some cfg ->
     (forall st1 fs1 t1,
        run_process E (harness_encode E temp_input cfg loss)
          (files w1) (clock w1) = (Exited st1, fs1, t1) ->
        st1 <> 0 ->
        fst (run_audio_simulation E audio_path loss ctype model w) = Ret None) /\
     (forall fs1 t1 st2 fs2 t2,
        run_process E (harness_encode E temp_input cfg loss)
          (files w1) (clock w1) = (Exited 0, fs1, t1) ->
        run_process E (harness_decode E temp_input cfg loss) fs1 t1 =
          (Exited st2, fs2, t2) ->
        st2 <> 0 ->
        fst (run_audio_simulation E audio_path loss ctype model w) = Ret None) /\
     (forall fs1 t1,
        run_process E (harness_encode E temp_input cfg loss)
          (files w1) (clock w1) = (SpawnFailed, fs1, t1) ->
        fst (run_audio_simulation E audio_path loss ctype model w) =
        Raise (LibraryError "subprocess")) /\
     (forall fs1 t1 fs2 t2,
        run_process E (harness_encode E temp_input cfg loss)
          (files w1) (clock w1) = (Exited 0, fs1, t1) ->
        run_process E (harness_decode E temp_input cfg loss) fs1 t1 =
          (SpawnFailed, fs2, t2) ->
        fst (run_audio_simulation E audio_path loss ctype model w) =
        Raise (LibraryError "subprocess")) /\
     (forall w2,
        process_audio_file E temp_input (bitrate cfg) (frame_size cfg)
          (complexity cfg) (use_fec cfg) loss w1 = (Ret None, w2) ->
        run_audio_simulation E audio_path loss ctype model w =
        (Ret None, snd (unlink temp_input w2))) /\
     (forall pf w2,
        process_audio_file E temp_input (bitrate cfg) (frame_size cfg)
          (complexity cfg) (use_fec cfg) loss w1 = (Ret (Some pf), w2) ->
        get_audio_quality E temp_input pf w2 = (Ret None, w2) ->
        run_audio_simulation E audio_path loss ctype model w =
        (Ret (Some (mkMetrics None cfg (float_sub E (clock w2) start) pf)),
         snd (unlink temp_input w2)))) /\
  ((exists e, fst (run_audio_simulation E audio_path loss ctype model w) = Raise e)
   <->
   ~ known_controller ctype \/
   controller_choice ctype loss model = None \/
   exists cfg,
     controller_choice ctype loss model = Some cfg /\
     (fst (fst (run_process E (harness_encode E temp_input cfg loss)
                  (files w1) (clock w1))) = SpawnFailed \/
      exists fs1 t1,
        run_process E (harness_encode E temp_input cfg loss)
          (files w1) (clock w1) = (Exited 0, fs1, t1) /\
        fst (fst (run_process E (harness_decode E temp_input cfg loss) fs1 t1))
        = SpawnFailed)).
Proof.
  intros Hprep. split; [| split; [| split; [| split]]].
  - intros Hunknown. split; [| eapply prepare_input_procs; exact Hprep].
    rewrite run_audio_simulation_run, Hprep.
    rewrite select_controller_unknown by exact Hunknown. reflexivity.
  - intros Hknown w'. rewrite run_audio_simulation_run, Hprep.
    rewrite select_controller_known by exact Hknown.
    destruct (controller_choice ctype loss model) as [cfg |]; [| congruence].
    destruct (process_audio_file E temp_input _ _ _ _ loss w1)
      as [[[pf |] | e] w2] eqn:Hproc; try congruence.
    + rewrite get_audio_quality_run. congruence.
    + apply process_audio_file_raises in Hproc as ->. congruence.
  - intros Hknown Hchoice. rewrite run_audio_simulation_run, Hprep.
    rewrite select_controller_known by exact Hknown.
    rewrite Hchoice. reflexivity.
  - intros Hknown cfg Hchoice.
    assert (Hrun : run_audio_simulation E audio_path loss ctype model w =
      match process_audio_file E temp_input (bitrate cfg) (frame_size cfg)
              (complexity cfg) (use_fec cfg) loss w1 with
      | (Raise e, w2) => (Raise e, w2)
      | (Ret None, w2) => (Ret None, snd (unlink temp_input w2))
      | (Ret (Some pf), w2) =>
          match get_audio_quality E temp_input pf w2 with
          | (Raise e, w3) => (Raise e, w3)
          | (Ret mos, w3) =>
              (Ret (Some (mkMetrics mos cfg (float_sub E (clock w3) start) pf)),
               snd (unlink temp_input w3))
          end
      end).
    { rewrite run_audio_simulation_run, Hprep.
      rewrite select_controller_known by exact Hknown.
      rewrite Hchoice. reflexivity. }
    rewrite Hrun. unfold harness_encode, harness_decode.
    split; [| split; [| split; [| split; [| split]]]].
    + intros st1 fs1 t1 Henc Hst.
      rewrite (process_audio_file_encode_failure E _ _ _ _ _ _ _ _ _ _ Henc Hst).
      reflexivity.
    + intros fs1 t1 st2 fs2 t2 Henc Hdec Hst.
      rewrite (process_audio_file_decode_failure E _ _ _ _ _ _ _ _ _ _ _ _
                 Henc Hdec Hst).
      reflexivity.
    + intros fs1 t1 Henc. rewrite process_audio_file_run, Henc. reflexivity.
    + intros fs1 t1 fs2 t2 Henc Hdec.
      rewrite process_audio_file_run, Henc, Hdec. reflexivity.
    + intros w2 ->. reflexivity.
    + intros pf w2 -> ->. reflexivity.
  - rewrite run_audio_simulation_run, Hprep.
    destruct (decide (known_controller ctype)) as [Hknown | Hunknown].
    2:{ rewrite select_controller_unknown by exact Hunknown. cbn.
        split; [intros _; left; exact Hunknown | eauto]. }
    rewrite select_controller_known by exact Hknown.
    destruct (controller_choice ctype loss model) as [cfg |] eqn:Hchoice.
    2:{ cbn. split; [intros _; right; left; reflexivity | eauto]. }
    unfold harness_encode, harness_decode.
    rewrite process_audio_file_run.
    destruct (run_process E (encode_command _ _ _ _ _ _) (files w1) (clock w1))
      as [[[st1 |] fs1] t1] eqn:Henc; cbn [fst].
    + destruct (Z.eqb_spec st1 0) as [-> | Hst].
      * destruct (run_process E (decode_command _ _ _ _) fs1 t1)
          as [[[st2 |] fs2] t2] eqn:Hdec.
        -- split.
           ++ intros [e He].
              destruct (st2 =? 0); [rewrite get_audio_quality_run in He |];
                cbn in He; discriminate He.
           ++ intros [Hu | [Hn | (cfg' & Hc & Hspawn)]];
                [contradiction | discriminate Hn |].
              injection Hc as <-.
              destruct Hspawn as [Hs | (fs1' & t1' & He & Hs)].
              ** rewrite Henc in Hs. discriminate Hs.
              ** rewrite Henc in He. injection He as <- <-.
                 rewrite Hdec in Hs. discriminate Hs.
        -- split; [| cbn; eauto].
           intros _. right; right. exists cfg. split; [reflexivity |].
           right. exists fs1, t1. split; [exact Henc |].
           rewrite Hdec. reflexivity.
      * split.
        -- intros [e He]. cbn in He. discriminate He.
        -- intros [Hu | [Hn | (cfg' & Hc & Hspawn)]];
             [contradiction | discriminate Hn |].
           injection Hc as <-.
           destruct Hspawn as [Hs | (fs1' & t1' & He & Hs)].
           ++ rewrite Henc in Hs. discriminate Hs.
           ++ rewrite Henc in He. injection He as -> _ _. contradiction.
    + split; [| cbn; eauto].
      intros _. right; right. exists cfg. split; [reflexivity |].
      left. rewrite Henc. reflexivity.
Qed.

(** C9 applied to the controller name ["bogus"] in the demo world. *)
Lemma run_audio_simulation_failure_modes_witness :
  prepare_input Demo.healthy Demo.clip Demo.w0 =
  (Ret (0%Q, "/home/u/adaptive_opus/processed_audio/temp_input_0.wav"),
   snd (prepare_input Demo.healthy Demo.clip Demo.w0)) /\
  fst (run_audio_simulation Demo.healthy Demo.clip (of_Z 5) "bogus" None Demo.w0)
  = Raise (ValueError "Unknown controller type") /\
  procs (snd (run_audio_simulation Demo.healthy Demo.clip (of_Z 5) "bogus" None
                Demo.w0)) = [].
Proof.
  assert (Hprep :
    prepare_input Demo.healthy Demo.clip Demo.w0 =
    (Ret (0%Q, "/home/u/adaptive_opus/processed_audio/temp_input_0.wav"),
     snd (prepare_input Demo.healthy Demo.clip Demo.w0)))
    by (vm_compute; reflexivity).
  assert (Hunknown : ~ known_controller "bogus").
  { rewrite known_controller_eqb. cbn. discriminate. }
  split; [exact Hprep |].
  destruct (run_audio_simulation_failure_modes Demo.healthy Demo.clip (of_Z 5)
              "bogus" None Demo.w0 _ _ _ Hprep) as [Hraise _].
  destruct (Hraise Hunknown) as [-> Hprocs].
  split; [reflexivity |]. exact Hprocs.
Defined.

(** C9 as stated fails: a known controller can make [run_audio_simulation]
    raise.  The learned controller with a predictor that scores every
    candidate at -2e9 gives no configuration and [cfg['bitrate']] raises
    [TypeError]; and with codec programs that cannot be started the pipeline
    failure is not turned into [None], the exception leaves the function. *)
Lemma run_audio_simulation_known_controller_raises :
  fst (run_audio_simulation Demo.healthy Demo.clip (of_Z 5) "ml_adaptive"
         (Some Demo.pessimist) Demo.w0) =
    Raise (TypeError "'NoneType' object is not subscriptable") /\
  fst (run_audio_simulation Demo.no_codec Demo.clip (of_Z 5) "static" None
         Demo.w0) = Raise (LibraryError "subprocess") /\
  ~ (forall (E : externals) (audio_path : string) (loss : pynum)
            (ctype : string) (model : option predictor) (w w1 : World)
            (start : Q) (temp_input : string),
       prepare_input E audio_path w = (Ret (start, temp_input), w1) ->
       known_controller ctype ->
       exists r w',
         run_audio_simulation E audio_path loss ctype model w = (Ret r, w')).
Proof.
  assert (Hspawn :
    fst (run_audio_simulation Demo.no_codec Demo.clip (of_Z 5) "static" None
           Demo.w0) = Raise (LibraryError "subprocess"))
    by (vm_compute; reflexivity).
  split; [vm_compute; reflexivity |]. split; [exact Hspawn |].
  intros Hnever.
  destruct (Hnever Demo.no_codec Demo.clip (of_Z 5) "static" None Demo.w0
              (snd (prepare_input Demo.no_codec Demo.clip Demo.w0))
              0%Q "/home/u/adaptive_opus/processed_audio/temp_input_0.wav")
    as (r & w' & Hrun).
  - vm_compute. reflexivity.
  - apply known_controller_eqb. reflexivity.
  - rewrite Hrun in Hspawn. discriminate Hspawn.
Qed.

(** ** The loss percentage is used as given *)

Lemma ml_controller_ext (l1 l2 : pynum) (m1 m2 : option predictor) :
  (forall cfg, try_predict m1 (features cfg l1) = try_predict m2 (features cfg l2)) ->
  ml_controller l1 m1 = ml_controller l2 m2.
Proof.
  intros Hext. unfold ml_controller. f_equal.
  generalize (@None config, initial_best_score).
  induction (generate_all_configs tt) as [| cfg rest IH]; intros st;
    [reflexivity |].
  cbn [fold_left]. rewrite IH. f_equal. unfold ml_step. rewrite Hext. reflexivity.
Qed.

(** On any loss of at most 100 the probe makes [ml_controller] choose the
    lowest bitrate. *)
Lemma probe_choice_in_range (used : pynum) :
  in_range used = true ->
  ml_controller used (Some Demo.probe) = Some (mkConfig 8 20 5 false).
Proof.
  intros [_ Hhi]%andb_true_iff.
  rewrite (ml_controller_ext used (of_Z 0) (Some Demo.probe) (Some Demo.probe)).
  - vm_compute. reflexivity.
  - intros cfg. unfold try_predict, features, Demo.probe.
    rewrite (leb_ltb_false _ _ Hhi). reflexivity.
Qed.

(** C5 (amended): [run_audio_simulation] does not clamp.  Whenever it
    returns metrics, the configuration in them is the decision of the named
    controller at [packet_loss_perc] itself, and the decoder was run with
    [--packet-loss str(packet_loss_perc)], on file names that carry the same
    value. *)
Theorem run_audio_simulation_uses_loss_as_given (E : externals)
    (audio_path : string) (loss : pynum) (ctype : string)
    (model : option predictor) (w w' : World) (m : metrics) :
  run_audio_simulation E audio_path loss ctype model w = (Ret (Some m), w') ->
  (ctype = "static" -> m_config m = static_controller loss) /\
  (ctype = "heuristic" -> m_config m = heuristic_controller loss) /\
  (ctype = "ml_adaptive" -> ml_controller loss model = Some (m_config m)) /\
  (ctype = "hybrid" -> hybrid_controller loss model = Some (m_config m)) /\
  exists (temp_input : string) (encode : list string),
    processed_file m =
      final_wav_file E temp_input (bitrate (m_config m)) (frame_size (m_config m))
        (complexity (m_config m)) (use_fec (m_config m)) loss /\
    procs w' = procs w ++
      [encode;
       ["opusdec"; "--rate"; "16000"; "--packet-loss"; str_num E loss;
        intermediate_opus_file E temp_input (bitrate (m_config m))
          (frame_size (m_config m)) (complexity (m_config m))
          (use_fec (m_config m)) loss;
        processed_file m]].
Proof.
  intros Hrun.
  apply run_audio_simulation_metrics in Hrun
    as (_ & Hchoice & start & temp_input & w1 & _ & Hfile & Hprocs).
  split; [| split; [| split; [| split]]].
  - intros ->. rewrite controller_choice_static in Hchoice. congruence.
  - intros ->. rewrite controller_choice_heuristic in Hchoice. congruence.
  - intros ->. rewrite controller_choice_ml in Hchoice. exact Hchoice.
  - intros ->. rewrite controller_choice_hybrid in Hchoice. exact Hchoice.
  - exists temp_input. eexists. split; [exact Hfile |].
    rewrite Hprocs, Hfile. reflexivity.
Qed.

(** C5 as amended, applied to a loss of 150 with the static controller. *)
Lemma run_audio_simulation_uses_loss_as_given_witness :
  run_audio_simulation Demo.healthy Demo.clip (of_Z 150) "static" None Demo.w0 =
  (Ret (Some (mkMetrics (Some (Fin (7 # 2))) (mkConfig 32 20 5 false) 2%Q
     "/home/u/adaptive_opus/processed_audio/clip_b32_f20_c5_nofec_l150.wav")),
   snd (run_audio_simulation Demo.healthy Demo.clip (of_Z 150) "static" None
          Demo.w0)) /\
  mkConfig 32 20 5 false = static_controller (of_Z 150).
Proof.
  assert (Hrun :
    run_audio_simulation Demo.healthy Demo.clip (of_Z 150) "static" None Demo.w0 =
    (Ret (Some (mkMetrics (Some (Fin (7 # 2))) (mkConfig 32 20 5 false) 2%Q
       "/home/u/adaptive_opus/processed_audio/clip_b32_f20_c5_nofec_l150.wav")),
     snd (run_audio_simulation Demo.healthy Demo.clip (of_Z 150) "static" None
            Demo.w0)))
    by (vm_compute; reflexivity).
  split; [exact Hrun |].
  exact (proj1 (run_audio_simulation_uses_loss_as_given _ _ _ _ _ _ _ _ Hrun)
           eq_refl).
Defined.

(** C5 as stated fails: with a loss of 150 the decoder is told
    [--packet-loss 150] and the learned controller, asked through a
    predictor that tells losses above 100 from the others, decides as no
    loss within [0,100] would make it decide; so the run is not the run on
    any value of that interval. *)
Lemma run_audio_simulation_loss_not_clamped :
  (exists m w',
     run_audio_simulation Demo.healthy Demo.clip (of_Z 150) "ml_adaptive"
       (Some Demo.probe) Demo.w0 = (Ret (Some m), w') /\
     m_config m = mkConfig 48 20 5 false /\
     last (procs w') =
     Some ["opusdec"; "--rate"; "16000"; "--packet-loss"; "150";
           "/home/u/adaptive_opus/processed_audio/clip_b48_f20_c5_nofec_l150.opus";
           "/home/u/adaptive_opus/processed_audio/clip_b48_f20_c5_nofec_l150.wav"]) /\
  (forall used, in_range used = true ->
     ml_controller used (Some Demo.probe) = Some (mkConfig 8 20 5 false)) /\
  ~ (forall (E : externals) (audio_path : string) (loss : pynum)
            (ctype : string) (model : option predictor) (w : World),
       exists used : pynum,
         in_range used = true /\
         run_audio_simulation E audio_path loss ctype model w =
         run_audio_simulation E audio_path used ctype model w).
Proof.
  assert (Hrun : exists m w',
     run_audio_simulation Demo.healthy Demo.clip (of_Z 150) "ml_adaptive"
       (Some Demo.probe) Demo.w0 = (Ret (Some m), w') /\
     m_config m = mkConfig 48 20 5 false /\
     last (procs w') =
     Some ["opusdec"; "--rate"; "16000"; "--packet-loss"; "150";
           "/home/u/adaptive_opus/processed_audio/clip_b48_f20_c5_nofec_l150.opus";
           "/home/u/adaptive_opus/processed_audio/clip_b48_f20_c5_nofec_l150.wav"]).
  { eexists. eexists. split; [vm_compute; reflexivity |].
    split; vm_compute; reflexivity. }
  split; [exact Hrun |]. split; [exact probe_choice_in_range |].
  intros Hclamped.
  destruct Hrun as (m & w' & Hrun & Hcfg & _).
  destruct (Hclamped Demo.healthy Demo.clip (of_Z 150) "ml_adaptive"
              (Some Demo.probe) Demo.w0) as (used & Hrange & Hsame).
  rewrite Hrun in Hsame. symmetry in Hsame.
  apply run_audio_simulation_metrics in Hsame as (_ & Hchoice & _).
  rewrite controller_choice_ml in Hchoice.
  rewrite (probe_choice_in_range used Hrange), Hcfg in Hchoice.
  discriminate.
Qed.

(** ** The scripts run on the demo world *)

Example worker_keeps_floor_score :
  fst (run_single_combination Demo.scorer_raises (Demo.job 5) Demo.w0) =
  Ret (Some (mkRow "clip.wav" 32 20 5 false (of_Z 5) (Fin 1))).
Proof. vm_compute. reflexivity. Qed.

Example worker_drops_wrong_rate :
  get_audio_quality Demo.wrong_rate Demo.clip
    "/home/u/adaptive_opus/processed_audio/clip_b32_f20_c5_nofec_l5.wav"
    (snd (process_audio_file Demo.wrong_rate Demo.clip 32 20 5 false (of_Z 5)
            Demo.w0)) =
  (Ret None,
   snd (process_audio_file Demo.wrong_rate Demo.clip 32 20 5 false (of_Z 5)
          Demo.w0)) /\
  fst (run_single_combination Demo.wrong_rate (Demo.job 5) Demo.w0) = Ret None.
Proof. split; vm_compute; reflexivity. Qed.

Example sweep_skips_failed_jobs :
  fst (run_experiment_parallel Demo.flaky
         [Demo.job_at 8; Demo.job_at 32; Demo.job_at 8; Demo.job_at 12] Demo.w0) =
  Ret (Some [mkRow "clip.wav" 32 20 5 false (of_Z 5) (Fin (7 # 2));
             mkRow "clip.wav" 12 20 5 false (of_Z 5) (Fin (7 # 2))]).
Proof. vm_compute. reflexivity. Qed.

Example decode_failure_removes_opus :
  fst (process_audio_file Demo.decoder_fails Demo.clip 32 20 5 false (of_Z 5)
         Demo.w0) = Ret None /\
  files (snd (process_audio_file Demo.decoder_fails Demo.clip 32 20 5 false
                (of_Z 5) Demo.w0))
    !! intermediate_opus_file Demo.decoder_fails Demo.clip 32 20 5 false (of_Z 5)
  = None.
Proof. vm_compute. split; reflexivity. Qed.

Example harness_returns_none_on_decode_failure :
  fst (run_audio_simulation Demo.decoder_fails Demo.clip (of_Z 5) "heuristic"
         None Demo.w0) = Ret None.
Proof. vm_compute. reflexivity. Qed.

Example harness_reports_missing_score :
  fst (run_audio_simulation Demo.wrong_rate Demo.clip (of_Z 5) "hybrid" None
         Demo.w0) =
  Ret (Some (mkMetrics None (mkConfig 32 20 5 false) 2%Q
     "/home/u/adaptive_opus/processed_audio/clip_b32_f20_c5_nofec_l5.wav")).
Proof. vm_compute. reflexivity. Qed.

(** * Further properties of the controllers *)

Lemma ltb_not_nan_leb_refl (a s : pynum) : ltb a s = true -> leb s s = true.
Proof.
  destruct a, s; try (simpl; congruence); intros _; pynum_order; apply Qle_refl.
Qed.

(** X1: More loss never buys a higher bitrate from the rule-based controller. *)
Theorem heuristic_controller_monotone (loss1 loss2 : pynum) :
  leb loss1 loss2 = true ->
  bitrate (heuristic_controller loss2) <= bitrate (heuristic_controller loss1).
Proof.
  intros Hle. rewrite !heuristic_bitrate_unfold.
  assert (Hdown : forall k, ltb loss2 k = true -> ltb loss1 k = true)
    by (intros k; apply leb_ltb_trans, Hle).
  assert (H25 : ltb (of_Z 2) (of_Z 5) = true) by reflexivity.
  assert (H510 : ltb (of_Z 5) (of_Z 10) = true) by reflexivity.
  destruct (ltb loss2 (of_Z 2)) eqn:A2.
  { rewrite (Hdown _ A2). lia. }
  destruct (ltb loss2 (of_Z 5)) eqn:A5.
  { pose proof (Hdown _ A5) as B5. rewrite B5.
    destruct (ltb loss1 (of_Z 2)); lia. }
  destruct (ltb loss2 (of_Z 10)) eqn:A10.
  { pose proof (Hdown _ A10) as B10. rewrite B10.
    destruct (ltb loss1 (of_Z 2)); [lia |].
    destruct (ltb loss1 (of_Z 5)); lia. }
  destruct (ltb loss1 (of_Z 2)); [lia |].
  destruct (ltb loss1 (of_Z 5)); [lia |].
  destruct (ltb loss1 (of_Z 10)); lia.
Qed.

(** X1 at a concrete input. *)
Lemma heuristic_controller_monotone_witness :
  leb (of_Z 1) (of_Z 7) = true /\
  bitrate (heuristic_controller (of_Z 7)) <= bitrate (heuristic_controller (of_Z 1)).
Proof.
  split; [reflexivity |].
  apply (heuristic_controller_monotone (of_Z 1) (of_Z 7)). reflexivity.
Defined.

Lemma heuristic_in_grid (loss : pynum) :
  heuristic_controller loss ∈ generate_all_configs tt.
Proof.
  apply grid_members. rewrite heuristic_bitrate_unfold. cbn [frame_size complexity use_fec heuristic_controller].
  split; [| set_solver].
  destruct (ltb loss (of_Z 2)); [set_solver |].
  destruct (ltb loss (of_Z 5)); [set_solver |].
  destruct (ltb loss (of_Z 10)); set_solver.
Qed.

Lemma ml_controller_in_grid (loss : pynum) (model : option predictor) cfg :
  ml_controller loss model = Some cfg -> cfg ∈ generate_all_configs tt.
Proof.
  pose proof (loop_invariant_result loss model) as Hinv.
  unfold ml_controller.
  destruct (fold_left _ _ _) as [[best |] best_score]; cbn [fst]; [| discriminate].
  intros [= ->]. destruct Hinv as (_ & _ & i & Hi & _).
  eapply list_elem_of_lookup_2, Hi.
Qed.

(** X2: Whatever the controller and the loss, a configuration handed to the
    codec pipeline is one of the 72 grid entries. *)
Theorem controller_decisions_in_grid (ctype : string) (loss : pynum)
    (model : option predictor) (w w' : World) (cfg : config) :
  select_controller ctype loss model w = (Ret (Some cfg), w') ->
  cfg ∈ generate_all_configs tt.
Proof.
  destruct (decide (known_controller ctype)) as [Hknown | Hunknown];
    [| rewrite select_controller_unknown by exact Hunknown; discriminate].
  rewrite select_controller_known by exact Hknown.
  intros [= Hchoice _].
  unfold known_controller in Hknown.
  rewrite !elem_of_cons, elem_of_nil in Hknown.
  destruct Hknown as [-> | [-> | [-> | [-> | []]]]].
  - rewrite controller_choice_static in Hchoice. injection Hchoice as <-.
    apply grid_members. cbn. set_solver.
  - rewrite controller_choice_heuristic in Hchoice. injection Hchoice as <-.
    apply heuristic_in_grid.
  - rewrite controller_choice_ml in Hchoice.
    eapply ml_controller_in_grid, Hchoice.
  - rewrite controller_choice_hybrid in Hchoice. unfold hybrid_controller in Hchoice.
    destruct (ltb loss (Fin 5)).
    + eapply ml_controller_in_grid, Hchoice.
    + injection Hchoice as <-. apply grid_members. cbn. set_solver.
Qed.

(** X2 at a concrete input. *)
Lemma controller_decisions_in_grid_witness :
  select_controller "heuristic" (of_Z 3) None Demo.w0 =
    (Ret (Some (mkConfig 24 20 5 false)), Demo.w0) /\
  mkConfig 24 20 5 false ∈ generate_all_configs tt.
Proof.
  assert (H : select_controller "heuristic" (of_Z 3) None Demo.w0 =
              (Ret (Some (mkConfig 24 20 5 false)), Demo.w0)) by reflexivity.
  split; [exact H |].
  exact (controller_decisions_in_grid _ _ _ _ _ _ H).
Defined.

(** In the grid, an entry of complexity 9 comes two places after the entry
    that differs from it in the complexity only. *)
Lemma grid_complexity_twin (i : nat) :
  (i < 72)%nat -> complexity (grid_entry i) = 9 ->
  (2 <= i)%nat /\
  bitrate (grid_entry (i - 2)) = bitrate (grid_entry i) /\
  frame_size (grid_entry (i - 2)) = frame_size (grid_entry i) /\
  use_fec (grid_entry (i - 2)) = use_fec (grid_entry i).
Proof.
  intros Hi.
  do 72 (destruct i as [| i];
         [cbn; intros H; try discriminate H; repeat split; lia |]).
  lia.
Qed.

(** X3: The complexity is not among the features, so a candidate of complexity
    9 is scored like its twin of complexity 5, which the loop has seen
    first: [ml_controller] never answers complexity 9. *)
Theorem ml_controller_complexity (loss : pynum) (model : option predictor)
    (cfg : config) :
  ml_controller loss model = Some cfg -> complexity cfg = 5.
Proof.
  pose proof (loop_invariant_result loss model) as Hinv.
  unfold ml_controller.
  destruct (fold_left _ _ _) as [[best |] best_score]; cbn [fst]; [| discriminate].
  intros [= ->]. destruct Hinv as (-> & Hinit & i & Hi & _ & Hfirst).
  assert (Hlt : (i < 72)%nat).
  { apply lookup_lt_Some in Hi.
    rewrite generate_all_configs_unfold, length_map, length_seq in Hi. exact Hi. }
  assert (Hcfg : cfg = grid_entry i).
  { rewrite generate_all_configs_unfold, list_lookup_fmap, lookup_seq_lt in Hi
      by exact Hlt. cbn in Hi. congruence. }
  assert (Hc : complexity cfg ∈ [5; 9]).
  { apply (grid_members cfg). eapply list_elem_of_lookup_2, Hi. }
  apply elem_of_cons in Hc as [Hc | Hc]; [exact Hc |].
  apply list_elem_of_singleton in Hc. exfalso.
  rewrite Hcfg in Hc.
  destruct (grid_complexity_twin i Hlt Hc) as (Hge & Hb & Hf & Hfec).
  assert (Htwin : generate_all_configs tt !! (i - 2)%nat = Some (grid_entry (i - 2))).
  { rewrite generate_all_configs_unfold, list_lookup_fmap, lookup_seq_lt by lia.
    reflexivity. }
  specialize (Hfirst (i - 2)%nat _ ltac:(lia) Htwin).
  assert (Hsame : candidate_score loss model (grid_entry (i - 2)) =
                  candidate_score loss model cfg).
  { unfold candidate_score, features. rewrite Hcfg, Hb, Hf, Hfec. reflexivity. }
  rewrite Hsame in Hfirst. unfold geb in Hfirst. unfold gtb in Hinit.
  rewrite (ltb_not_nan_leb_refl _ _ Hinit) in Hfirst. discriminate.
Qed.

(** X3 at a concrete input. *)
Lemma ml_controller_complexity_witness :
  ml_controller (of_Z 150) (Some Demo.probe) = Some (mkConfig 48 20 5 false) /\
  complexity (mkConfig 48 20 5 false) = 5.
Proof.
  assert (H : ml_controller (of_Z 150) (Some Demo.probe) =
              Some (mkConfig 48 20 5 false)) by (vm_compute; reflexivity).
  split; [exact H |].
  exact (ml_controller_complexity _ _ _ H).
Defined.

(** * Further properties of the sweep *)

Lemma length_bind_const {A B : Type} (f : A -> list B) (n : nat) (l : list A) :
  (forall x, length (f x) = n) -> length (l ≫= f) = (length l * n)%nat.
Proof.
  intros Hf. induction l as [| x l IH]; [reflexivity |].
  cbn. rewrite length_app, Hf. cbn in IH. rewrite IH. reflexivity.
Qed.

(** X4: The job list holds 504 jobs (6 bitrates, 3 frame sizes, 2 complexities,
    2 FEC settings, 7 loss levels) for each of the first 20 audio files at
    most: 10080 jobs as soon as 20 files are found, none for no file. *)
Theorem all_job_params_length (audio_files : list string) :
  length (all_job_params audio_files) =
  (Nat.min 20 (length audio_files) * 504)%nat.
Proof.
  unfold all_job_params.
  rewrite (length_bind_const _ 504); [| intros x; reflexivity].
  rewrite length_take. reflexivity.
Qed.

(** A job is in the list exactly when its file is one of the first 20 and
    its parameters are listed values. *)
Lemma all_job_params_members (audio_files : list string) (params : job_params) :
  params ∈ all_job_params audio_files <->
  original_file params ∈ take 20 audio_files /\
  p_bitrate params ∈ [8; 12; 16; 24; 32; 48] /\
  p_frame_size params ∈ [20; 40; 60] /\
  p_complexity params ∈ [5; 9] /\
  p_use_fec params ∈ [true; false] /\
  exists loss : Z, loss ∈ [0; 1; 2; 3; 5; 7; 10] /\
                   packet_loss_perc params = of_Z loss.
Proof.
  unfold all_job_params, MAX_FILES_TO_PROCESS, BITRATES, FRAME_SIZES,
    COMPLEXITIES, FEC_STATUSES, PACKET_LOSSES.
  repeat setoid_rewrite list_elem_of_bind.
  setoid_rewrite list_elem_of_singleton.
  split.
  - intros (file & (b & (f & (c & (fec & (loss & -> & Hl) & Hfec) & Hc) & Hf) & Hb)
             & Hfile).
    cbn. repeat (split; [assumption |]). exists loss. split; [exact Hl | reflexivity].
  - destruct params as [file b f c fec l]. cbn.
    intros (Hfile & Hb & Hf & Hc & Hfec & loss & Hl & ->).
    exists file. split; [| exact Hfile].
    exists b. split; [| exact Hb].
    exists f. split; [| exact Hf].
    exists c. split; [| exact Hc].
    exists fec. split; [| exact Hfec].
    exists loss. split; [reflexivity | exact Hl].
Qed.

(** X5: Every job of the sweep asks for a configuration of the dashboard's grid
    and for a loss between 0 and 100. *)
Theorem all_job_params_in_grid (audio_files : list string) (params : job_params) :
  params ∈ all_job_params audio_files ->
  mkConfig (p_bitrate params) (p_frame_size params) (p_complexity params)
    (p_use_fec params) ∈ generate_all_configs tt /\
  in_range (packet_loss_perc params) = true /\
  original_file params ∈ audio_files.
Proof.
  intros (Hfile & Hb & Hf & Hc & Hfec & loss & Hl & Hloss)%all_job_params_members.
  split; [| split].
  - apply grid_members. cbn. repeat split; try assumption.
    destruct (p_use_fec params);
      [apply list_elem_of_further, list_elem_of_here | apply list_elem_of_here].
  - rewrite Hloss.
    repeat (apply elem_of_cons in Hl as [-> | Hl]; [reflexivity |]).
    apply elem_of_nil in Hl. destruct Hl.
  - eapply subseteq_take, Hfile.
Qed.

(** X5 at a concrete input. *)
Lemma all_job_params_in_grid_witness :
  mkJob "a.flac" 24 40 9 true (of_Z 7) ∈ all_job_params ["a.flac"; "b.flac"] /\
  mkConfig 24 40 9 true ∈ generate_all_configs tt.
Proof.
  assert (H : mkJob "a.flac" 24 40 9 true (of_Z 7)
              ∈ all_job_params ["a.flac"; "b.flac"]).
  { apply all_job_params_members. cbn.
    repeat split; try set_solver. exists 7. split; [set_solver | reflexivity]. }
  split; [exact H |].
  exact (proj1 (all_job_params_in_grid _ _ H)).
Defined.

(** X6: Distinct audio files give pairwise distinct jobs: no (file,
    configuration, loss) combination is submitted twice. *)
Theorem all_job_params_NoDup (audio_files : list string) :
  NoDup audio_files -> NoDup (all_job_params audio_files).
Proof.
  intros Hnd. unfold all_job_params.
  apply NoDup_bind; [| | eapply sublist_NoDup; [exact Hnd | apply sublist_take]].
  - intros f1 f2 p _ _ H1 H2.
    assert (E1 : original_file p = f1).
    { clear H2. repeat setoid_rewrite list_elem_of_bind in H1.
      setoid_rewrite list_elem_of_singleton in H1.
      destruct H1 as (? & (? & (? & (? & (? & -> & _) & _) & _) & _) & _).
      reflexivity. }
    assert (E2 : original_file p = f2).
    { clear H1. repeat setoid_rewrite list_elem_of_bind in H2.
      setoid_rewrite list_elem_of_singleton in H2.
      destruct H2 as (? & (? & (? & (? & (? & -> & _) & _) & _) & _) & _).
      reflexivity. }
    congruence.
  - intros file _.
    change (NoDup ((fun t : Z * Z * Z * bool * Z =>
                      let '(b, f, c, fec, l) := t in
                      mkJob file b f c fec (of_Z l)) <$>
                   (b ← BITRATES; f ← FRAME_SIZES; c ← COMPLEXITIES;
                    fec ← FEC_STATUSES; l ← PACKET_LOSSES;
                    [(b, f, c, fec, l)]))).
    apply NoDup_fmap_2.
    + intros [[[[b1 f1] c1] fec1] l1] [[[[b2 f2] c2] fec2] l2] [= -> -> -> -> ->].
      reflexivity.
    + apply (bool_decide_eq_true_1 _). vm_compute. reflexivity.
Qed.

(** X6 at a concrete input. *)
Lemma all_job_params_NoDup_witness :
  NoDup ["a.flac"; "b.flac"] /\ NoDup (all_job_params ["a.flac"; "b.flac"]).
Proof.
  assert (H : NoDup ["a.flac"; "b.flac"]).
  { apply (bool_decide_eq_true_1 _). reflexivity. }
  split; [exact H |].
  exact (all_job_params_NoDup _ H).
Defined.

(** * Further properties of the codec pipeline and the scorer *)

Lemma string_app_inv_head (s a b : string) : s +:+ a = s +:+ b -> a = b.
Proof.
  induction s as [| ch s IH]; cbn; [trivial |]. intros [= H]. apply IH, H.
Qed.

Lemma intermediate_not_final (E : externals) (input : string) (b f c : Z)
    (fec : bool) (loss : pynum) :
  intermediate_opus_file E input b f c fec loss <>
  final_wav_file E input b f c fec loss.
Proof.
  unfold intermediate_opus_file, final_wav_file. intros H.
  do 3 apply string_app_inv_head in H. discriminate H.
Qed.

(** X7: [process_audio_file] starts the encoder once, and the decoder once and
    only after an encoder that exited with status 0; it returns a path only
    after both have run. *)
Theorem process_audio_file_child_processes (E : externals) (input : string)
    (b f c : Z) (fec : bool) (loss : pynum) (w : World) :
  (procs (snd (process_audio_file E input b f c fec loss w)) =
     procs w ++ [encode_command input b f c fec
                   (intermediate_opus_file E input b f c fec loss)] /\
   fst (fst (run_process E
               (encode_command input b f c fec
                  (intermediate_opus_file E input b f c fec loss))
               (files w) (clock w))) <> Exited 0 /\
   forall out, fst (process_audio_file E input b f c fec loss w) <> Ret (Some out))
  \/
  (procs (snd (process_audio_file E input b f c fec loss w)) =
     procs w ++ [encode_command input b f c fec
                   (intermediate_opus_file E input b f c fec loss);
                 decode_command E loss
                   (intermediate_opus_file E input b f c fec loss)
                   (final_wav_file E input b f c fec loss)] /\
   fst (fst (run_process E
               (encode_command input b f c fec
                  (intermediate_opus_file E input b f c fec loss))
               (files w) (clock w))) = Exited 0).
Proof.
  rewrite process_audio_file_run.
  destruct (run_process E (encode_command _ _ _ _ _ _) (files w) (clock w))
    as [[[st1 |] fs1] t1]; cbn [fst snd].
  - destruct (Z.eqb_spec st1 0) as [-> | Hst].
    + right. split; [| reflexivity].
      destruct (run_process E (decode_command _ _ _ _) fs1 t1)
        as [[[st2 |] fs2] t2]; cbn [snd procs]; rewrite <- app_assoc; reflexivity.
    + left. repeat split; cbn; congruence.
  - left. repeat split; cbn; congruence.
Qed.

(** X8: Once the encoder has exited with status 0 and the decoder has exited
    with any status, the intermediate file is gone, and it is the only file
    the function removes: the decoded file and every other file are as the
    decoder left them. *)
Theorem process_audio_file_unlinks_only_intermediate (E : externals)
    (input : string) (b f c : Z) (fec : bool) (loss : pynum) (w : World)
    fs1 t1 st2 fs2 t2 :
  run_process E
    (encode_command input b f c fec (intermediate_opus_file E input b f c fec loss))
    (files w) (clock w) = (Exited 0, fs1, t1) ->
  run_process E
    (decode_command E loss (intermediate_opus_file E input b f c fec loss)
       (final_wav_file E input b f c fec loss)) fs1 t1 = (Exited st2, fs2, t2) ->
  files (snd (process_audio_file E input b f c fec loss w))
    !! intermediate_opus_file E input b f c fec loss = None /\
  files (snd (process_audio_file E input b f c fec loss w))
    !! final_wav_file E input b f c fec loss
  = fs2 !! final_wav_file E input b f c fec loss /\
  forall p : string,
    p <> intermediate_opus_file E input b f c fec loss ->
    files (snd (process_audio_file E input b f c fec loss w)) !! p = fs2 !! p.
Proof.
  intros Henc Hdec. rewrite process_audio_file_run, Henc, Hdec. cbn.
  split; [apply lookup_delete_eq |].
  split.
  - apply lookup_delete_ne, intermediate_not_final.
  - intros p Hp. apply lookup_delete_ne. congruence.
Qed.

(** X8 at a concrete input. *)
Lemma process_audio_file_unlinks_only_intermediate_witness :
  files (snd (process_audio_file Demo.decoder_fails Demo.clip 32 20 5 false
                (of_Z 5) Demo.w0))
    !! intermediate_opus_file Demo.decoder_fails Demo.clip 32 20 5 false (of_Z 5)
  = None.
Proof.
  refine (proj1 (process_audio_file_unlinks_only_intermediate Demo.decoder_fails
                   Demo.clip 32 20 5 false (of_Z 5) Demo.w0 _ _ 1 _ _ _ _));
    vm_compute; reflexivity.
Defined.

(** X9: [get_audio_quality] never raises and changes nothing on disk.  A score
    it returns comes from two files read at 16000 Hz: with each signal
    reduced to the first value of every frame when it has several channels,
    and both cut to the first [n] samples, [n] the length of the shorter
    one, it is the scorer's answer on that pair, or 1.0 if the scorer
    raised. *)
Theorem get_audio_quality_scores_aligned_mono (E : externals)
    (o p : string) (w : World) :
  exists r : option pynum,
    get_audio_quality E o p w = (Ret r, w) /\
    forall s : pynum, r = Some s ->
      exists (ref_data deg_data : ndarray) (ref_first deg_first : list Z),
        fst (sf_read E o w) = Ret (ref_data, 16000) /\
        fst (sf_read E p w) = Ret (deg_data, 16000) /\
        ref_first = match ref_data with
                    | Arr1 samples => samples
                    | Arr2 frames => map (fun frame => hd 0 frame) frames
                    end /\
        deg_first = match deg_data with
                    | Arr1 samples => samples
                    | Arr2 frames => map (fun frame => hd 0 frame) frames
                    end /\
        s = match pesq E 16000
                    (Arr1 (take (Nat.min (length ref_first) (length deg_first))
                             ref_first))
                    (Arr1 (take (Nat.min (length ref_first) (length deg_first))
                             deg_first))
                    "wb" with
            | Some score => score
            | None => Fin 1
            end.
Proof.
  rewrite get_audio_quality_run. eexists. split; [reflexivity |].
  intros s.
  destruct (fst (sf_read E o w)) as [[ref_data ref_fs] |]; [| discriminate].
  destruct (fst (sf_read E p w)) as [[deg_data deg_fs] |]; [| discriminate].
  destruct (Z.eqb_spec ref_fs 16000) as [-> | Hr]; [| discriminate].
  destruct (Z.eqb_spec deg_fs 16000) as [-> | Hd]; [| discriminate].
  cbn [negb orb]. intros Hs.
  exists ref_data, deg_data. eexists. eexists.
  split; [reflexivity |]. split; [reflexivity |].
  split; [reflexivity |]. split; [reflexivity |].
  destruct ref_data as [rs | rf], deg_data as [ds | df];
    unfold pesq_inputs, to_mono in Hs; cbn in Hs;
    destruct (pesq E 16000 _ _ "wb"); congruence.
Qed.

(** * Further properties of the worker and the collected rows *)

(** X10: A worker call whose pipeline produced a decoded file leaves neither that
    file nor the intermediate one behind, whatever the scorer said, and
    touches no other file. *)
Theorem run_single_combination_cleans_up (E : externals)
    (params : job_params) (w w1 : World) (pf : string) :
  process_audio_file E (original_file params) (p_bitrate params)
    (p_frame_size params) (p_complexity params) (p_use_fec params)
    (packet_loss_perc params) w = (Ret (Some pf), w1) ->
  files (snd (run_single_combination E params w)) !! pf = None /\
  files (snd (run_single_combination E params w))
    !! intermediate_opus_file E (original_file params) (p_bitrate params)
         (p_frame_size params) (p_complexity params) (p_use_fec params)
         (packet_loss_perc params) = None /\
  forall q : string,
    q <> pf -> files (snd (run_single_combination E params w)) !! q = files w1 !! q.
Proof.
  intros Hproc. rewrite run_single_combination_run, Hproc.
  rewrite get_audio_quality_run. cbn.
  apply process_audio_file_success in Hproc as (_ & _ & Hinter).
  split; [apply lookup_delete_eq |].
  split.
  - apply lookup_delete_None. right. exact Hinter.
  - intros q Hq. apply lookup_delete_ne. congruence.
Qed.

(** X10 at a concrete input. *)
Lemma run_single_combination_cleans_up_witness :
  files (snd (run_single_combination Demo.healthy (Demo.job 5) Demo.w0))
    !! Demo.decoded = None.
Proof.
  refine (proj1 (run_single_combination_cleans_up Demo.healthy (Demo.job 5)
                   Demo.w0 _ Demo.decoded _)).
  vm_compute. reflexivity.
Defined.

Lemma run_single_combination_row (E : externals) (params : job_params)
    (w : World) (r : row) :
  fst (run_single_combination E params w) = Ret (Some r) ->
  exists s : pynum, truthy s = true /\ r = result_data E params s.
Proof.
  rewrite run_single_combination_run.
  destruct (process_audio_file E _ _ _ _ _ _ w) as [[[pf |] | e] w1];
    try discriminate.
  destruct (get_audio_quality E _ pf w1) as [[[s |] | e] w2]; try discriminate.
  cbn. destruct (truthy s) eqn:Hs; [| discriminate].
  intros [= <-]. exists s. split; [exact Hs | reflexivity].
Qed.

Lemma job_outcomes_row (E : externals) (arrival : list job_params) :
  forall (w : World) (params : job_params) (r : row),
    (params, Ret (Some r)) ∈ job_outcomes E arrival w ->
    params ∈ arrival /\
    exists s : pynum, truthy s = true /\ r = result_data E params s.
Proof.
  induction arrival as [| p rest IH]; intros w params r Hin.
  - apply elem_of_nil in Hin. destruct Hin.
  - cbn [job_outcomes] in Hin. apply elem_of_cons in Hin as [Heq | Hin].
    + injection Heq as -> Hr. split; [apply list_elem_of_here |].
      eapply run_single_combination_row. symmetry. exact Hr.
    + destruct (IH _ _ _ Hin) as [Hmem Hrow].
      split; [apply list_elem_of_further, Hmem | exact Hrow].
Qed.

Lemma length_omap_le {A B : Type} (f : A -> option B) (l : list A) :
  (length (omap f l) <= length l)%nat.
Proof.
  induction l as [| x l IH]; cbn; [lia |]. destruct (f x); cbn; lia.
Qed.

Lemma job_outcomes_length (E : externals) (arrival : list job_params) :
  forall w, length (job_outcomes E arrival w) = length arrival.
Proof.
  induction arrival as [| p rest IH]; intros w; cbn; [| rewrite IH]; reflexivity.
Qed.

(** X11: Every row of the result list was made from one of the submitted jobs:
    it carries that job's file name, bitrate, frame size, complexity, FEC
    setting and loss, and a score that is not zero; there are at most as
    many rows as jobs. *)
Theorem collected_rows_come_from_jobs (E : externals)
    (arrival : list job_params) (w : World) (rows : list row) :
  fst (run_experiment_parallel E arrival w) = Ret (Some rows) ->
  (length rows <= length arrival)%nat /\
  forall r : row, r ∈ rows ->
    exists params : job_params,
      params ∈ arrival /\
      r_original_file r = path_name E (original_file params) /\
      r_bitrate r = p_bitrate params /\
      r_frame_size r = p_frame_size params /\
      r_complexity r = p_complexity params /\
      r_use_fec r = p_use_fec params /\
      r_packet_loss_perc r = packet_loss_perc params /\
      truthy (pesq_mos_score r) = true.
Proof.
  unfold run_experiment_parallel, try_except, bind.
  pose proof (collect_loop_run E arrival [] w) as Hloop.
  destruct (collect_loop E arrival [] w) as [res w1]. cbn in Hloop. subst res.
  cbn. intros [= <-]. split.
  - etransitivity; [apply length_omap_le |]. rewrite job_outcomes_length. lia.
  - intros r ([params outcome] & Hin & Hsample)%list_elem_of_omap.
    unfold sample_of in Hsample. cbn in Hsample.
    destruct outcome as [[r' |] | e]; try discriminate.
    injection Hsample as ->.
    destruct (job_outcomes_row _ _ _ _ _ Hin) as (Hmem & s & Hs & ->).
    exists params. cbn. repeat split; assumption.
Qed.

(** X11 at a concrete input. *)
Lemma collected_rows_come_from_jobs_witness :
  (length [mkRow "clip.wav" 32 20 5 false (of_Z 5) (Fin (7 # 2));
           mkRow "clip.wav" 12 20 5 false (of_Z 5) (Fin (7 # 2))]
   <= length [Demo.job_at 8; Demo.job_at 32; Demo.job_at 8; Demo.job_at 12])%nat.
Proof.
  refine (proj1 (collected_rows_come_from_jobs Demo.flaky
                   [Demo.job_at 8; Demo.job_at 32; Demo.job_at 8; Demo.job_at 12]
                   Demo.w0 _ _)).
  vm_compute. reflexivity.
Defined.

(** * Further properties of the evaluation harness and its caller *)

Section HarnessMore.
Context (E : externals).

(** What [prepare_input] has done when it returns. *)
Lemma prepare_input_inv (audio_path : string) (w w1 : World)
    (start : Q) (temp_input : string) :
  prepare_input E audio_path w = (Ret (start, temp_input), w1) ->
  start = clock w /\
  temp_input = temp_input_name E (clock w) /\
  exists (data : ndarray) (sr : Z) (out : ndarray) (bytes : string),
    fst (sf_read E audio_path w) = Ret (data, sr) /\
    sr <> 0 /\
    (sr = 16000 -> out = to_mono data) /\
    (sr <> 16000 ->
     scipy_resample E (to_mono data)
       (int_of_Q (int_true_div E (Z.of_nat (arr_len (to_mono data)) * 16000) sr))
     = Some out) /\
    sf_write_file E out 16000 = Written bytes /\
    w1 = mkWorld (<[temp_input := bytes]> (files w)) (clock w) (procs w).
Proof.
  unfold prepare_input, bind, time_time.
  destruct (sf_read E audio_path w) as [[[data sr] | e] w'] eqn:Hread;
    pose proof (sf_read_world _ _ _ _ _ Hread) as ->; [| discriminate].
  cbn [fst snd]. fold (to_mono data). unfold resample_to_16khz.
  destruct (Z.eqb_spec sr 16000) as [-> | H16].
  - cbn. unfold sf_write.
    destruct (sf_write_file E (to_mono data) 16000) as [bytes | [partial |]] eqn:Hw;
      try discriminate.
    cbn. intros [= <- <- <-]. repeat split.
    exists data, 16000, (to_mono data), bytes.
    repeat split; first [exact Hw | lia | congruence].
  - destruct (Z.eqb_spec sr 0) as [-> | H0]; [discriminate |].
    destruct (scipy_resample E (to_mono data) _) as [out |] eqn:Hres;
      [| discriminate].
    cbn. unfold sf_write.
    destruct (sf_write_file E out 16000) as [bytes | [partial |]] eqn:Hw;
      try discriminate.
    cbn. intros [= <- <- <-]. repeat split.
    exists data, sr, out, bytes.
    repeat split; first [exact Hw | exact H0 | exact Hres | congruence].
Qed.

(** What [prepare_input] has done when it raises. *)
Lemma sf_write_raise_inv (p : string) (data : ndarray) (sr : Z)
    (w w1 : World) (e : exn) :
  sf_write E p data sr w = (Raise e, w1) ->
  e = LibraryError "soundfile" /\
  procs w1 = procs w /\
  forall q : string, q <> p -> files w1 !! q = files w !! q.
Proof.
  unfold sf_write.
  destruct (sf_write_file E data sr) as [bytes | [partial |]];
    [discriminate | |]; intros [= <- <-]; cbn; repeat split.
  intros q Hq. apply lookup_insert_ne. congruence.
Qed.

Lemma prepare_input_raise_inv (audio_path : string) (w w1 : World) (e : exn) :
  prepare_input E audio_path w = (Raise e, w1) ->
  (e = LibraryError "soundfile" \/ e = ZeroDivisionError \/
   e = LibraryError "scipy") /\
  procs w1 = procs w /\
  (forall p : string,
     p <> temp_input_name E (clock w) -> files w1 !! p = files w !! p) /\
  ((exists e', fst (sf_read E audio_path w) = Raise e') \/
   e = ZeroDivisionError \/ e = LibraryError "scipy" ->
   w1 = w).
Proof.
  unfold prepare_input, bind, time_time.
  destruct (sf_read E audio_path w) as [[[data sr] | e'] w'] eqn:Hread;
    pose proof (sf_read_world _ _ _ _ _ Hread) as ->.
  - cbn [fst snd]. fold (to_mono data). fold (temp_input_name E (clock w)).
    assert (Hwrite : forall out rate,
      match sf_write E (temp_input_name E (clock w)) out rate w with
      | (Ret _, w'0) => ret (clock w, temp_input_name E (clock w)) w'0
      | (Raise e0, w'0) => (Raise e0, w'0)
      end = (Raise e, w1) ->
      (e = LibraryError "soundfile" \/ e = ZeroDivisionError \/
       e = LibraryError "scipy") /\
      procs w1 = procs w /\
      (forall p : string,
         p <> temp_input_name E (clock w) -> files w1 !! p = files w !! p) /\
      ((exists e', Ret (data, sr) = Raise e') \/
       e = ZeroDivisionError \/ e = LibraryError "scipy" -> w1 = w)).
    { intros out rate.
      destruct (sf_write E (temp_input_name E (clock w)) out rate w)
        as [[[] | e0] w0] eqn:Hw; [discriminate |].
      intros [= <- <-].
      apply sf_write_raise_inv in Hw as (-> & Hprocs & Hfiles).
      split; [auto |]. split; [exact Hprocs |]. split; [exact Hfiles |].
      intros [[e' He'] | [He' | He']]; discriminate. }
    unfold resample_to_16khz.
    destruct (sr =? 16000);
      [intros H; apply (Hwrite (to_mono data) sr); exact H |].
    destruct (sr =? 0).
    { cbn. intros [= <- <-]. repeat split; auto. }
    destruct (scipy_resample E (to_mono data) _) as [out |];
      [intros H; apply (Hwrite out 16000); exact H |].
    cbn. intros [= <- <-]. repeat split; auto.
  - intros [= <- <-].
    split.
    { left. unfold sf_read in Hread. destruct (files w !! audio_path) as [bytes |];
        [destruct (sf_decode E bytes) |]; congruence. }
    repeat split; reflexivity.
Qed.

End HarnessMore.





(** X14: Whenever [run_audio_simulation] returns, with metrics or with Python's
    [None], the temporary input is gone; when it raises at the dispatch (an
    unknown controller name, or a learned controller that gave no
    configuration) the temporary input is still on disk. *)
Theorem run_audio_simulation_temp_input (E : externals) (audio_path : string)
    (loss : pynum) (ctype : string) (model : option predictor) (w w1 : World)
    (start : Q) (temp_input : string) :
  prepare_input E audio_path w = (Ret (start, temp_input), w1) ->
  (forall r w',
     run_audio_simulation E audio_path loss ctype model w = (Ret r, w') ->
     files w' !! temp_input = None) /\
  (forall msg w',
     run_audio_simulation E audio_path loss ctype model w =
       (Raise (ValueError msg), w') \/
     run_audio_simulation E audio_path loss ctype model w =
       (Raise (TypeError msg), w') ->
     is_Some (files w' !! temp_input)).
Proof.
  intros Hprep.
  pose proof Hprep as (_ & _ & data & sr & out & bytes & _ & _ & _ & _ & _ & Hw1)%prepare_input_inv.
  assert (Htemp : is_Some (files w1 !! temp_input)).
  { rewrite Hw1. cbn. rewrite lookup_insert_eq. eauto. }
  rewrite run_audio_simulation_run, Hprep.
  split.
  - intros r w'.
    destruct (select_controller ctype loss model w1) as [[[cfg |] | e] w1'];
      try discriminate.
    destruct (process_audio_file E temp_input _ _ _ _ loss w1')
      as [[[pf |] | e] w2]; try discriminate.
    + rewrite get_audio_quality_run. intros [= _ <-]. apply lookup_delete_eq.
    + intros [= _ <-]. apply lookup_delete_eq.
  - intros msg w'.
    destruct (decide (known_controller ctype)) as [Hknown | Hunknown].
    + rewrite select_controller_known by exact Hknown.
      destruct (controller_choice ctype loss model) as [cfg |].
      * destruct (process_audio_file E temp_input _ _ _ _ loss w1)
          as [[[pf |] | e] w2] eqn:Hproc.
        -- rewrite get_audio_quality_run. intros [H | H]; discriminate H.
        -- intros [H | H]; discriminate H.
        -- apply process_audio_file_raises in Hproc as ->.
           intros [H | H]; discriminate H.
      * intros [H | H]; [discriminate H |]. injection H as _ <-. exact Htemp.
    + rewrite select_controller_unknown by exact Hunknown.
      intros [H | H]; [| discriminate H]. injection H as _ <-. exact Htemp.
Qed.

(** X14 at a concrete input. *)
Lemma run_audio_simulation_temp_input_witness :
  files (snd (run_audio_simulation Demo.decoder_fails Demo.clip (of_Z 5)
                "heuristic" None Demo.w0))
    !! "/home/u/adaptive_opus/processed_audio/temp_input_0.wav" = None.
Proof.
  refine (proj1 (run_audio_simulation_temp_input Demo.decoder_fails Demo.clip
                   (of_Z 5) "heuristic" None Demo.w0 _ _ _ _) None _ _).
  - vm_compute. reflexivity.
  - vm_compute. reflexivity.
Defined.

Lemma load_model_never_raises_aux (E : externals) (w : World) :
  exists r : option predictor, load_model E w = (Ret r, w).
Proof.
  unfold load_model. destruct (files w !! MODEL_PATH E) as [bytes |];
    [destruct (joblib_load E bytes) |]; eauto.
Qed.

(** ** The dashboard loop *)

Lemma run_audio_simulation_no_value_error (E : externals) (audio_path : string)
    (loss : pynum) (ctype : string) (model : option predictor)
    (w w' : World) (msg : string) :
  known_controller ctype ->
  run_audio_simulation E audio_path loss ctype model w <>
  (Raise (ValueError msg), w').
Proof.
  intros Hknown. rewrite run_audio_simulation_run.
  destruct (prepare_input E audio_path w) as [[[start temp_input] | e] w1] eqn:Hprep.
  - rewrite select_controller_known by exact Hknown.
    destruct (controller_choice ctype loss model) as [cfg |]; [| congruence].
    destruct (process_audio_file E temp_input _ _ _ _ loss w1)
      as [[[pf |] | e] w2] eqn:Hproc; try congruence.
    + rewrite get_audio_quality_run. congruence.
    + apply process_audio_file_raises in Hproc as ->. congruence.
  - apply prepare_input_raise_inv in Hprep as ([-> | [-> | ->]] & _); congruence.
Qed.

Lemma show_tab_no_value_error (E : externals) (tmp_path : string)
    (loss : pynum) (model : option predictor) (ctrl : string)
    (w w' : World) (msg : string) :
  known_controller ctrl ->
  show_tab E tmp_path loss model ctrl w <> (Raise (ValueError msg), w').
Proof.
  intros Hknown. unfold show_tab, bind.
  pose proof (run_audio_simulation_no_value_error E tmp_path loss ctrl model w)
    as Hrun.
  destruct (run_audio_simulation E tmp_path loss ctrl model w)
    as [[[m |] | e] w1]; cbn.
  - destruct (mos m); cbn; unfold ret, raise; congruence.
  - unfold ret; congruence.
  - intros [= -> ->]. eapply Hrun; [exact Hknown | reflexivity].
Qed.

Lemma run_tabs_no_value_error (E : externals) (tmp_path : string)
    (loss : pynum) (model : option predictor) (ctrls : list string) :
  Forall known_controller ctrls ->
  forall (w w' : World) (msg : string),
    run_tabs E tmp_path loss model ctrls w <> (Raise (ValueError msg), w').
Proof.
  induction 1 as [| ctrl rest Hknown _ IH]; intros w w' msg; [discriminate |].
  cbn [run_tabs]. unfold bind.
  pose proof (show_tab_no_value_error E tmp_path loss model ctrl w) as Htab.
  destruct (show_tab E tmp_path loss model ctrl w) as [[shown | e] w1].
  - pose proof (IH w1) as Hrest.
    destruct (run_tabs E tmp_path loss model rest w1) as [[others | e] w2];
      cbn; [unfold ret; congruence |].
    intros [= -> ->]. eapply Hrest. reflexivity.
  - intros [= -> ->]. eapply Htab; [exact Hknown | reflexivity].
Qed.

(** X16: The dashboard only asks for the four controllers the dispatch knows, so
    pressing "Run Simulation" never ends in the unknown-controller
    [ValueError], whatever the upload, the loss and the model file. *)
Theorem run_simulation_button_never_unknown_controller (E : externals)
    (tmp_path : string) (packet_loss : pynum) (w w' : World) (msg : string) :
  run_simulation_button E tmp_path packet_loss w <> (Raise (ValueError msg), w').
Proof.
  unfold run_simulation_button, bind.
  destruct (load_model_never_raises_aux E w) as [model ->].
  apply run_tabs_no_value_error.
  unfold controllers, known_controller.
  repeat (apply Forall_cons; split; [set_solver |]). apply Forall_nil. exact I.
Qed.

(** X17: In the dashboard loop, for a known controller that gave a
    configuration: when the pipeline fails, the tab shows the failure and
    the loop goes on with the remaining controllers; when the pipeline
    succeeds and the scorer returns Python's [None], formatting the score
    raises [TypeError] and the remaining controllers are not simulated. *)
Theorem dashboard_loop_on_failures (E : externals) (tmp_path : string)
    (loss : pynum) (model : option predictor) (ctrl : string)
    (rest : list string) (w w1 : World) (start : Q) (temp_input : string)
    (cfg : config) :
  prepare_input E tmp_path w = (Ret (start, temp_input), w1) ->
  known_controller ctrl ->
  controller_choice ctrl loss model = Some cfg ->
  (forall w2,
     process_audio_file E temp_input (bitrate cfg) (frame_size cfg)
       (complexity cfg) (use_fec cfg) loss w1 = (Ret None, w2) ->
     run_tabs E tmp_path loss model (ctrl :: rest) w =
     match run_tabs E tmp_path loss model rest (snd (unlink temp_input w2)) with
     | (Ret others, w3) => (Ret ((ctrl, SimulationFailed) :: others), w3)
     | (Raise e, w3) => (Raise e, w3)
     end) /\
  (forall pf w2,
     process_audio_file E temp_input (bitrate cfg) (frame_size cfg)
       (complexity cfg) (use_fec cfg) loss w1 = (Ret (Some pf), w2) ->
     get_audio_quality E temp_input pf w2 = (Ret None, w2) ->
     run_tabs E tmp_path loss model (ctrl :: rest) w =
     (Raise (TypeError "unsupported format string passed to NoneType.__format__"),
      snd (unlink temp_input w2)) /\
     procs (snd (unlink temp_input w2)) = procs w2).
Proof.
  intros Hprep Hknown Hchoice. split.
  - intros w2 Hproc. cbn [run_tabs]. unfold bind at 1. unfold show_tab, bind at 1.
    rewrite run_audio_simulation_run, Hprep.
    rewrite select_controller_known by exact Hknown.
    rewrite Hchoice, Hproc. cbn [ret]. unfold bind, ret.
    destruct (run_tabs E tmp_path loss model rest _) as [[others | e] w3];
      reflexivity.
  - intros pf w2 Hproc Hq. split; [| reflexivity].
    cbn [run_tabs]. unfold bind at 1. unfold show_tab, bind at 1.
    rewrite run_audio_simulation_run, Hprep.
    rewrite select_controller_known by exact Hknown.
    rewrite Hchoice, Hproc, Hq. reflexivity.
Qed.

(** X17 at a concrete input. *)
Lemma dashboard_loop_on_failures_witness :
  fst (run_tabs Demo.wrong_rate Demo.clip (of_Z 5) None controllers Demo.w0) =
  Raise (TypeError "unsupported format string passed to NoneType.__format__").
Proof.
  pose proof (dashboard_loop_on_failures Demo.wrong_rate Demo.clip (of_Z 5) None
                "static" ["heuristic"; "ml_adaptive"; "hybrid"] Demo.w0) as H.
  edestruct H as [_ Hstop].
  - vm_compute. reflexivity.
  - apply known_controller_eqb. reflexivity.
  - reflexivity.
  - edestruct Hstop as [Hrun _]; [vm_compute; reflexivity | vm_compute; reflexivity |].
    unfold controllers. rewrite Hrun. reflexivity.
Defined.
